(** * gotirc: the Twitch chat client of [client.go]

    A shallow embedding of [client.go] (package [gotirc]) and the properties
    of its connection life cycle, its rate-limited sender and its dispatcher.

    Go strings are byte strings: [string] with one [ascii] per byte.
    A method of [*Client] is a computation in the monad [M]: it reads and
    updates the client and either returns or panics.  What a method does to
    the world outside the [Client] struct (bytes flushed to the transport,
    [time.Sleep], listener invocations, debug log lines, dial attempts) is
    appended to the [events] field, oldest first. *)

From Stdlib Require Import ZArith Floats Ascii String DecimalString Lia.
From stdpp Require Import base option list strings gmap.

Local Open Scope string_scope.
Local Open Scope Z_scope.

(** ** Go's [strings] package and string slicing *)

Module strings.

(** [strings.HasPrefix(s, prefix)] *)
Definition HasPrefix (s pre : string) : bool := String.prefix pre s.

(** [strings.HasSuffix(s, suffix)] *)
Definition HasSuffix (s suf : string) : bool :=
  (String.length suf <=? String.length s)%nat
  && String.eqb
       (String.substring (String.length s - String.length suf)
          (String.length suf) s) suf.

(** [strings.Join(elems, sep)] *)
Definition Join (elems : list string) (sep : string) : string :=
  String.concat sep elems.

(** [s[n:]], defined when [n <= len(s)] *)
Definition sliceFrom (n : nat) (s : string) : option string :=
  if (n <=? String.length s)%nat
  then Some (String.substring n (String.length s - n) s)
  else None.

(** [s[0]] *)
Definition first (s : string) : option ascii := String.get 0 s.

End strings.

(** ** Errors *)

(** A Go [error] value, identified by its [Error()] text.  [errorsNew] stands
    for the values built by [errors.New] and [fmt.Errorf]; [netError] for the
    errors reported by [net], [bufio] and [io]. *)
Inductive error : Type :=
| errorsNew (msg : string)
| netError (msg : string).

Definition Error (e : error) : string :=
  match e with errorsNew msg => msg | netError msg => msg end.

Definition EOF : error := netError "EOF".
Definition ErrClosed : error := netError "use of closed network connection".

(** ** [fmt.Sprintf]

    The fragment of [fmt.Sprintf] that [client.go] exercises.  Operands are
    strings, ints and errors.  A directive is [%], then flags, a decimal
    width and a decimal precision, then the verb; [%%] prints a percent
    sign.  [%s] and [%v] print a string or an error, [%d] and [%v] an int.
    A directive whose operand is missing prints [%!verb(MISSING)], a format
    that ends inside a directive prints [%!(NOVERB)], operands left over are
    reported as [%!(EXTRA ...)].  Outside the fragment: padding and
    truncation by width and precision (the formats that [client.go] applies
    to operands have none), the other verbs Go accepts for an operand, such
    as [%q] and [%x] (printed here as a verb the operand does not support),
    [*] widths, [[n]] operand indexes and verbs outside ASCII. *)
Module fmt.

Inductive arg : Type :=
| argString (s : string)
| argInt (z : Z)
| argError (e : error).

Definition itoa (z : Z) : string := NilZero.string_of_int (Z.to_int z).

Definition typeName (x : arg) : string :=
  match x with
  | argString _ => "string"
  | argInt _ => "int"
  | argError _ => "*errors.errorString"
  end.

(** the operand under [%v] *)
Definition valueOf (x : arg) : string :=
  match x with
  | argString s => s
  | argInt z => itoa z
  | argError e => Error e
  end.

Definition badVerb (verb : ascii) (x : arg) : string :=
  "%!" ++ String verb ("(" ++ typeName x ++ "=" ++ valueOf x ++ ")").

Definition printArg (x : arg) (verb : ascii) : string :=
  match x with
  | argString s =>
      if (Ascii.eqb verb "s" || Ascii.eqb verb "v")%bool then s
      else badVerb verb x
  | argInt z =>
      if (Ascii.eqb verb "d" || Ascii.eqb verb "v")%bool then itoa z
      else badVerb verb x
  | argError e =>
      if (Ascii.eqb verb "s" || Ascii.eqb verb "v")%bool then Error e
      else badVerb verb x
  end.

Definition missingArg (verb : ascii) : string :=
  "%!" ++ String verb "(MISSING)".

Fixpoint extraArgs (a : list arg) : string :=
  match a with
  | [] => ""
  | [x] => typeName x ++ "=" ++ valueOf x
  | x :: a' => typeName x ++ "=" ++ valueOf x ++ ", " ++ extraArgs a'
  end.

Definition extra (a : list arg) : string :=
  match a with
  | [] => ""
  | _ => "%!(EXTRA " ++ extraArgs a ++ ")"
  end.

(** where the scanner of [doPrintf] stands *)
Inductive place : Type := inText | inFlags | inWidth | inPrec.

Definition isFlag (c : ascii) : bool :=
  (Ascii.eqb c "#" || Ascii.eqb c "0" || Ascii.eqb c "+"
   || Ascii.eqb c "-" || Ascii.eqb c " ")%bool.

Definition isDigit (c : ascii) : bool :=
  let n := nat_of_ascii c in ((48 <=? n) && (n <=? 57))%nat.

(** what the scanner does with the byte [c] *)
Inductive action : Type := literal | goto (p : place) | verb.

Definition scan (p : place) (c : ascii) : action :=
  match p with
  | inText => if Ascii.eqb c "%" then goto inFlags else literal
  | inFlags =>
      if isFlag c then goto inFlags
      else if isDigit c then goto inWidth
      else if Ascii.eqb c "." then goto inPrec
      else verb
  | inWidth =>
      if isDigit c then goto inWidth
      else if Ascii.eqb c "." then goto inPrec
      else verb
  | inPrec => if isDigit c then goto inPrec else verb
  end.

Fixpoint doPrintf (p : place) (format : string) (a : list arg) : string :=
  match format with
  | EmptyString =>
      match p with
      | inText => extra a
      | _ => "%!(NOVERB)" ++ extra a
      end
  | String c rest =>
      match scan p c with
      | literal => String c (doPrintf inText rest a)
      | goto p' => doPrintf p' rest a
      | verb =>
          if Ascii.eqb c "%" then "%" ++ doPrintf inText rest a
          else match a with
               | [] => missingArg c ++ doPrintf inText rest []
               | x :: a' => printArg x c ++ doPrintf inText rest a'
               end
      end
  end.

Definition Sprintf (format : string) (a : list arg) : string :=
  doPrintf inText format a.

(** [fmt.Errorf] *)
Definition Errorf (format : string) (a : list arg) : error :=
  errorsNew (Sprintf format a).

End fmt.

(** ** [time] and float64 arithmetic

    A [time.Duration] is an int64 count of nanoseconds, a [time.Time] a
    reading of the monotonic clock in nanoseconds; float64 is Rocq's
    binary64. *)
Module time.

Definition Duration := Z.
Definition Time := Z.

Definition Second : Duration := 1000000000.
Definition Minute : Duration := 60 * Second.

Definition maxDuration : Duration := 2 ^ 63 - 1.
Definition minDuration : Duration := - 2 ^ 63.

(** [t.Sub(u)]: the difference, saturated to the int64 range *)
Definition Sub (t u : Time) : Duration :=
  let d := t - u in
  if d <? minDuration then minDuration
  else if maxDuration <? d then maxDuration
  else d.

(** [float64(n)] for an int64 [n] *)
Definition float64 (n : Z) : float :=
  if n <? 0 then PrimFloat.opp (PrimFloat.of_uint63 (Uint63.of_Z (- n)))
  else PrimFloat.of_uint63 (Uint63.of_Z n).

(** [d.Seconds()] *)
Definition Seconds (d : Duration) : float :=
  (float64 (Z.quot d Second) + float64 (Z.rem d Second) / 1000000000)%float.

(** [int64(f)]: truncation toward zero; a value outside int64 (or a NaN)
    converts to the smallest int64, as on amd64 *)
Definition int64 (f : float) : Z :=
  match Prim2SF f with
  | S754_zero _ => 0
  | S754_finite s m e =>
      let v := if 0 <=? e then Z.pos m * 2 ^ e else Z.shiftr (Z.pos m) (- e) in
      let z := if s then - v else v in
      if (minDuration <=? z) && (z <=? maxDuration) then z else minDuration
  | _ => minDuration
  end.

End time.


(** ** Channels *)

(** A Go channel: [nil], or made with a capacity, holding the buffered
    elements oldest first, open or closed. *)
Inductive chan (A : Type) : Type :=
| chanNil
| chanMake (capacity : nat) (buf : list A) (closed : bool).
Arguments chanNil {A}.
Arguments chanMake {A} capacity buf closed.

(** The values a panic of the Go run time carries in this program.  Go does
    not fix the order in which the index expressions of one argument list
    are evaluated, so an index panic does not name the index. *)
Inductive panicValue : Type :=
| IndexOutOfRange
| SliceBoundsOutOfRange
| SendOnClosedChannel
| CloseOfNilChannel
| CloseOfClosedChannel
| NilPointerDereference.

Module channel.

(** [make(chan A, n)] *)
Definition make {A} (n : nat) : chan A := chanMake n [] false.

(** [close(ch)] *)
Definition close {A} (ch : chan A) : panicValue + chan A :=
  match ch with
  | chanNil => inl CloseOfNilChannel
  | chanMake _ _ true => inl CloseOfClosedChannel
  | chanMake n buf false => inr (chanMake n buf true)
  end.

(** [select { case ch <- x: ...; default: ... }]: the channel afterwards
    and whether the send case ran *)
Definition trySend {A} (ch : chan A) (x : A) : panicValue + (chan A * bool) :=
  match ch with
  | chanNil => inr (chanNil, false)
  | chanMake _ _ true => inl SendOnClosedChannel
  | chanMake n buf false =>
      if (length buf <? n)%nat then inr (chanMake n (buf ++ [x]) false, true)
      else inr (ch, false)
  end.

(** whether [<-ch] can proceed because [ch] is closed and drained *)
Definition isClosed {A} (ch : chan A) : bool :=
  match ch with
  | chanMake _ [] true => true
  | _ => false
  end.

End channel.

(** ** The transport

    [net.Conn] with the [bufio.Reader] and [bufio.Writer] the client wraps
    around it.  The peer is a script: [reads] are the results of the
    successive [ReadString('\n')] calls (an exhausted script reads as end
    of file, and as the error of a closed connection once the transport is
    closed: the entries left at a [Close] are the lines the reader has
    buffered), [writes] the errors of the successive flushes ([None], or an
    exhausted script: the flush succeeds).  Deadlines are real time and are
    not modelled. *)
Record Conn : Type := mkConn {
  reads : list (string * option error);
  writes : list (option error);
  connClosed : bool
}.

Definition sendBufferSize : nat := 512.

Definition caps : list string := ["membership"; "commands"; "tags"].

Definition CR : ascii := ascii_of_nat 13.
Definition LF : ascii := ascii_of_nat 10.
Definition CRLF : string := String CR (String LF "").

(** ** Messages

    [Message] and [Prefix] are declared in [message.go], which is outside
    [client.go]; these are the fields [client.go] reads.  The field
    [Message.Prefix] is [Prefix_] here and [Prefix.Host] is [Host_], the
    names [Prefix] and [Host] being taken by the type and by [Options]. *)
Record Prefix : Type := mkPrefix { Nick : string; User : string; Host_ : string }.

Record Message : Type := mkMessage {
  Tags : gmap string string;
  Prefix_ : Prefix;
  Command : string;
  Params : list string
}.

(** ** Listeners and events *)

(** A registered callback is a Go func value; the model knows it by a
    number and records its invocations, its body is outside the model. *)
Definition listener := nat.

(** the operands of one invocation, by listener signature *)
Inductive callArgs : Type :=
| argsChannelTagsMsg (channel : string) (tags : gmap string string) (msg : string)
| argsMsg (msg : string)
| argsChannelTags (channel : string) (tags : gmap string string)
| argsChannelUser (channel username : string).

Inductive Event : Type :=
| EvDial (address : string)
| EvLog (line : string)
| EvWrite (data : string)
| EvSleep (d : time.Duration)
| EvCall (cb : listener) (a : callArgs)
| EvGoSendLoop (maxMessages perSeconds : float)
| EvConnClose.

(** ** The client *)

Record Options : Type := mkOptions {
  Debug : bool;
  Port : Z;
  Host : string;
  Channels : list string
}.

Record Client : Type := mkClient {
  options : Options;
  sendQueue : chan string;
  recvChannel : chan Message;
  conn : option Conn;
  readTimeout : time.Duration;
  connected : bool;
  doneChan : chan unit;
  actionCallbacks : list listener;
  chatCallbacks : list listener;
  resubCallbacks : list listener;
  noticeCallbacks : list listener;
  userStateCallbacks : list listener;
  roomStateCallbacks : list listener;
  subGiftCallbacks : list listener;
  subscriptionCallbacks : list listener;
  cheerCallbacks : list listener;
  joinCallbacks : list listener;
  partCallbacks : list listener;
  whisperCallbacks : list listener;
  events : list Event
}.

(** [NewClient] *)
Definition NewClient (o : Options) : Client :=
  mkClient o chanNil chanNil None (10 * time.Minute) false chanNil
    [] [] [] [] [] [] [] [] [] [] [] [] [].

(** Field updates. *)
Definition set_sendQueue (x : chan string) (c : Client) : Client :=
  mkClient (options c) x (recvChannel c) (conn c) (readTimeout c)
    (connected c) (doneChan c) (actionCallbacks c) (chatCallbacks c)
    (resubCallbacks c) (noticeCallbacks c) (userStateCallbacks c)
    (roomStateCallbacks c) (subGiftCallbacks c) (subscriptionCallbacks c)
    (cheerCallbacks c) (joinCallbacks c) (partCallbacks c)
    (whisperCallbacks c) (events c).

Definition set_conn (x : option Conn) (c : Client) : Client :=
  mkClient (options c) (sendQueue c) (recvChannel c) x (readTimeout c)
    (connected c) (doneChan c) (actionCallbacks c) (chatCallbacks c)
    (resubCallbacks c) (noticeCallbacks c) (userStateCallbacks c)
    (roomStateCallbacks c) (subGiftCallbacks c) (subscriptionCallbacks c)
    (cheerCallbacks c) (joinCallbacks c) (partCallbacks c)
    (whisperCallbacks c) (events c).

Definition set_connected (x : bool) (c : Client) : Client :=
  mkClient (options c) (sendQueue c) (recvChannel c) (conn c) (readTimeout c)
    x (doneChan c) (actionCallbacks c) (chatCallbacks c) (resubCallbacks c)
    (noticeCallbacks c) (userStateCallbacks c) (roomStateCallbacks c)
    (subGiftCallbacks c) (subscriptionCallbacks c) (cheerCallbacks c)
    (joinCallbacks c) (partCallbacks c) (whisperCallbacks c) (events c).

Definition set_doneChan (x : chan unit) (c : Client) : Client :=
  mkClient (options c) (sendQueue c) (recvChannel c) (conn c) (readTimeout c)
    (connected c) x (actionCallbacks c) (chatCallbacks c) (resubCallbacks c)
    (noticeCallbacks c) (userStateCallbacks c) (roomStateCallbacks c)
    (subGiftCallbacks c) (subscriptionCallbacks c) (cheerCallbacks c)
    (joinCallbacks c) (partCallbacks c) (whisperCallbacks c) (events c).

Definition set_actionCallbacks (x : list listener) (c : Client) : Client :=
  mkClient (options c) (sendQueue c) (recvChannel c) (conn c) (readTimeout c)
    (connected c) (doneChan c) x (chatCallbacks c) (resubCallbacks c)
    (noticeCallbacks c) (userStateCallbacks c) (roomStateCallbacks c)
    (subGiftCallbacks c) (subscriptionCallbacks c) (cheerCallbacks c)
    (joinCallbacks c) (partCallbacks c) (whisperCallbacks c) (events c).

Definition set_chatCallbacks (x : list listener) (c : Client) : Client :=
  mkClient (options c) (sendQueue c) (recvChannel c) (conn c) (readTimeout c)
    (connected c) (doneChan c) (actionCallbacks c) x (resubCallbacks c)
    (noticeCallbacks c) (userStateCallbacks c) (roomStateCallbacks c)
    (subGiftCallbacks c) (subscriptionCallbacks c) (cheerCallbacks c)
    (joinCallbacks c) (partCallbacks c) (whisperCallbacks c) (events c).

Definition set_resubCallbacks (x : list listener) (c : Client) : Client :=
  mkClient (options c) (sendQueue c) (recvChannel c) (conn c) (readTimeout c)
    (connected c) (doneChan c) (actionCallbacks c) (chatCallbacks c) x
    (noticeCallbacks c) (userStateCallbacks c) (roomStateCallbacks c)
    (subGiftCallbacks c) (subscriptionCallbacks c) (cheerCallbacks c)
    (joinCallbacks c) (partCallbacks c) (whisperCallbacks c) (events c).

Definition set_noticeCallbacks (x : list listener) (c : Client) : Client :=
  mkClient (options c) (sendQueue c) (recvChannel c) (conn c) (readTimeout c)
    (connected c) (doneChan c) (actionCallbacks c) (chatCallbacks c)
    (resubCallbacks c) x (userStateCallbacks c) (roomStateCallbacks c)
    (subGiftCallbacks c) (subscriptionCallbacks c) (cheerCallbacks c)
    (joinCallbacks c) (partCallbacks c) (whisperCallbacks c) (events c).

Definition set_userStateCallbacks (x : list listener) (c : Client) : Client :=
  mkClient (options c) (sendQueue c) (recvChannel c) (conn c) (readTimeout c)
    (connected c) (doneChan c) (actionCallbacks c) (chatCallbacks c)
    (resubCallbacks c) (noticeCallbacks c) x (roomStateCallbacks c)
    (subGiftCallbacks c) (subscriptionCallbacks c) (cheerCallbacks c)
    (joinCallbacks c) (partCallbacks c) (whisperCallbacks c) (events c).

Definition set_roomStateCallbacks (x : list listener) (c : Client) : Client :=
  mkClient (options c) (sendQueue c) (recvChannel c) (conn c) (readTimeout c)
    (connected c) (doneChan c) (actionCallbacks c) (chatCallbacks c)
    (resubCallbacks c) (noticeCallbacks c) (userStateCallbacks c) x
    (subGiftCallbacks c) (subscriptionCallbacks c) (cheerCallbacks c)
    (joinCallbacks c) (partCallbacks c) (whisperCallbacks c) (events c).

Definition set_subGiftCallbacks (x : list listener) (c : Client) : Client :=
  mkClient (options c) (sendQueue c) (recvChannel c) (conn c) (readTimeout c)
    (connected c) (doneChan c) (actionCallbacks c) (chatCallbacks c)
    (resubCallbacks c) (noticeCallbacks c) (userStateCallbacks c)
    (roomStateCallbacks c) x (subscriptionCallbacks c) (cheerCallbacks c)
    (joinCallbacks c) (partCallbacks c) (whisperCallbacks c) (events c).

Definition set_subscriptionCallbacks (x : list listener) (c : Client) : Client :=
  mkClient (options c) (sendQueue c) (recvChannel c) (conn c) (readTimeout c)
    (connected c) (doneChan c) (actionCallbacks c) (chatCallbacks c)
    (resubCallbacks c) (noticeCallbacks c) (userStateCallbacks c)
    (roomStateCallbacks c) (subGiftCallbacks c) x (cheerCallbacks c)
    (joinCallbacks c) (partCallbacks c) (whisperCallbacks c) (events c).

Definition set_cheerCallbacks (x : list listener) (c : Client) : Client :=
  mkClient (options c) (sendQueue c) (recvChannel c) (conn c) (readTimeout c)
    (connected c) (doneChan c) (actionCallbacks c) (chatCallbacks c)
    (resubCallbacks c) (noticeCallbacks c) (userStateCallbacks c)
    (roomStateCallbacks c) (subGiftCallbacks c) (subscriptionCallbacks c) x
    (joinCallbacks c) (partCallbacks c) (whisperCallbacks c) (events c).

Definition set_joinCallbacks (x : list listener) (c : Client) : Client :=
  mkClient (options c) (sendQueue c) (recvChannel c) (conn c) (readTimeout c)
    (connected c) (doneChan c) (actionCallbacks c) (chatCallbacks c)
    (resubCallbacks c) (noticeCallbacks c) (userStateCallbacks c)
    (roomStateCallbacks c) (subGiftCallbacks c) (subscriptionCallbacks c)
    (cheerCallbacks c) x (partCallbacks c) (whisperCallbacks c) (events c).

Definition set_partCallbacks (x : list listener) (c : Client) : Client :=
  mkClient (options c) (sendQueue c) (recvChannel c) (conn c) (readTimeout c)
    (connected c) (doneChan c) (actionCallbacks c) (chatCallbacks c)
    (resubCallbacks c) (noticeCallbacks c) (userStateCallbacks c)
    (roomStateCallbacks c) (subGiftCallbacks c) (subscriptionCallbacks c)
    (cheerCallbacks c) (joinCallbacks c) x (whisperCallbacks c) (events c).

Definition set_whisperCallbacks (x : list listener) (c : Client) : Client :=
  mkClient (options c) (sendQueue c) (recvChannel c) (conn c) (readTimeout c)
    (connected c) (doneChan c) (actionCallbacks c) (chatCallbacks c)
    (resubCallbacks c) (noticeCallbacks c) (userStateCallbacks c)
    (roomStateCallbacks c) (subGiftCallbacks c) (subscriptionCallbacks c)
    (cheerCallbacks c) (joinCallbacks c) (partCallbacks c) x (events c).

Definition set_events (x : list Event) (c : Client) : Client :=
  mkClient (options c) (sendQueue c) (recvChannel c) (conn c) (readTimeout c)
    (connected c) (doneChan c) (actionCallbacks c) (chatCallbacks c)
    (resubCallbacks c) (noticeCallbacks c) (userStateCallbacks c)
    (roomStateCallbacks c) (subGiftCallbacks c) (subscriptionCallbacks c)
    (cheerCallbacks c) (joinCallbacks c) (partCallbacks c)
    (whisperCallbacks c) x.

(** ** The monad of client methods *)

Inductive Res (A : Type) : Type :=
| Ok (a : A) (c : Client)
| Panic (p : panicValue) (c : Client).
Arguments Ok {A} a c.
Arguments Panic {A} p c.

Definition M (A : Type) : Type := Client -> Res A.

Definition ret {A} (a : A) : M A := fun c => Ok a c.

Definition bind {A B} (m : M A) (f : A -> M B) : M B := fun c =>
  match m c with
  | Ok a c' => f a c'
  | Panic p c' => Panic p c'
  end.

Declare Scope go_scope.
Delimit Scope go_scope with go.
Notation "x ← y ; z" := (bind y (fun x => z))
  (at level 20, y at level 100, z at level 200, only parsing) : go_scope.
Notation "' x ← y ; z" := (bind y (fun x => z))
  (at level 20, x pattern, y at level 100, z at level 200, only parsing)
  : go_scope.
Notation "x ;; z" := (bind x (fun _ => z))
  (at level 100, z at level 200, only parsing, right associativity) : go_scope.
Local Open Scope go_scope.

Definition get : M Client := fun c => Ok c c.
Definition modify (f : Client -> Client) : M unit := fun c => Ok tt (f c).
Definition panic {A} (p : panicValue) : M A := fun c => Panic p c.

(** a result of the Go run time: a panic or a value *)
Definition lift {A} (r : panicValue + A) : M A :=
  match r with inl p => panic p | inr a => ret a end.

(** [defer cleanup; body]: [cleanup] runs when [body] returns or panics *)
Definition defer {A} (cleanup : M unit) (body : M A) : M A := fun c =>
  match body c with
  | Ok a c' =>
      match cleanup c' with
      | Ok _ c'' => Ok a c''
      | Panic p c'' => Panic p c''
      end
  | Panic p c' =>
      match cleanup c' with
      | Ok _ c'' => Panic p c''
      | Panic p' c'' => Panic p' c''
      end
  end.

(** [for _, x := range l { f(x) }] *)
Fixpoint forEach {A} (l : list A) (f : A -> M unit) : M unit :=
  match l with
  | [] => ret tt
  | x :: l' => f x ;; forEach l' f
  end.

Definition emit (e : Event) : M unit :=
  modify (fun c => set_events (events c ++ [e]) c).

(** [s[i]] on a slice of strings *)
Definition index (s : list string) (i : nat) : M string :=
  match s !! i with
  | Some x => ret x
  | None => panic IndexOutOfRange
  end.

(** ** Connection state *)

(** [Client.log] *)
Definition log (format : string) (v : list fmt.arg) : M unit :=
  c ← get;
  if Debug (options c) then emit (EvLog (fmt.Sprintf format v)) else ret tt.

(** [Client.Connected] *)
Definition Connected : M bool := c ← get; ret (connected c).

(** [Client.Disconnect] *)
Definition Disconnect : M unit :=
  c ← get;
  if connected c then
    modify (set_connected false) ;;
    c ← get;
    ch ← lift (channel.close (doneChan c));
    modify (set_doneChan ch)
  else ret tt.

(** [Client.doConnect]: [connFactory] returns a connection or an error *)
Definition doConnect (connFactory : M (option Conn * option error))
  : M (option Conn * option error) :=
  c ← get;
  if connected c then ret (None, Some (errorsNew "Already connected"))
  else
    '(cn, err) ← connFactory;
    (if err is None then modify (set_connected true) else ret tt) ;;
    ret (cn, err).

(** ** The transport operations *)

(** the result of the next [ReadString('\n')] and the transport afterwards *)
Definition nextRead (cn : Conn) : (string * option error) * Conn :=
  match reads cn with
  | [] => (("", Some EOF), cn)
  | r :: rest => (r, mkConn rest (writes cn) (connClosed cn))
  end.

(** the result of the next flush and the transport afterwards *)
Definition nextFlush (cn : Conn) : option error * Conn :=
  match writes cn with
  | [] => (None, cn)
  | r :: rest => (r, mkConn (reads cn) rest (connClosed cn))
  end.

(** [c.reader.ReadString('\n')].  The reader is a [bufio.Reader]: after a
    [Close] of the transport it still returns the lines it holds, which are
    the entries left in the script; the read that finds none goes to the
    closed connection and fails. *)
Definition readString : M (string * option error) :=
  c ← get;
  match conn c with
  | None => panic NilPointerDereference
  | Some cn =>
      if connClosed cn then
        match reads cn with
        | [] => ret ("", Some ErrClosed)
        | _ :: _ =>
            let '(r, cn') := nextRead cn in
            modify (set_conn (Some cn')) ;;
            ret r
        end
      else
        let '(r, cn') := nextRead cn in
        modify (set_conn (Some cn')) ;;
        ret r
  end.

(** [c.writer.WriteString(data)] followed by [c.writer.Flush()] *)
Definition writeFlush (data : string) : M (option error) :=
  c ← get;
  match conn c with
  | None => panic NilPointerDereference
  | Some cn =>
      if connClosed cn then ret (Some ErrClosed)
      else
        let '(err, cn') := nextFlush cn in
        modify (set_conn (Some cn')) ;;
        (if err is None then emit (EvWrite data) else ret tt) ;;
        ret err
  end.

(** [c.conn.Close()] *)
Definition connClose : M unit :=
  c ← get;
  match conn c with
  | None => panic NilPointerDereference
  | Some cn =>
      modify (set_conn (Some (mkConn (reads cn) (writes cn) true))) ;;
      emit EvConnClose
  end.

(** [Client.write] *)
Definition write (data : string) : M (option error) :=
  log "< %s" [fmt.argString data] ;;
  writeFlush data.

(** [Client.read] *)
Definition read : M (string * option error) :=
  '(line, err) ← readString;
  log "> %s" [fmt.argString line] ;;
  ret (line, err).

(** ** The outbound queue *)

(** [Client.send] *)
Definition send (format : string) (args : list fmt.arg) : M unit :=
  co ← Connected;
  if negb co then ret tt
  else
    let msg := fmt.Sprintf format args in
    c ← get;
    '(q, sent) ← lift (channel.trySend (sendQueue c) msg);
    if sent then modify (set_sendQueue q)
    else log "Send queue full; discarding message: %s" [fmt.argString msg].

Definition hash : ascii := "#"%char.

(** [Client.Say] *)
Definition Say (channel msg : string) : M unit :=
  match strings.first channel with
  | None => panic IndexOutOfRange
  | Some b =>
      let channel := if Ascii.eqb b hash then channel else "#" ++ channel in
      send (fmt.Sprintf "PRIVMSG %s :%s"
              [fmt.argString channel; fmt.argString msg]) []
  end.

(** [Client.Whisper] *)
Definition Whisper (user msg : string) : M unit :=
  Say "#jtv" ("/w " ++ user ++ " " ++ msg).

(** [Client.Join] *)
Definition Join (channel : string) : M unit :=
  let channel :=
    if strings.HasPrefix channel "#" then channel else "#" ++ channel in
  send "JOIN %s" [fmt.argString channel].

(** [Client.Part] *)
Definition Part (channel : string) : M unit :=
  let channel :=
    if strings.HasPrefix channel "#" then channel else "#" ++ channel in
  send "PART %s" [fmt.argString channel].

(** ** Registration: [OnAction] ... [OnWhisper] *)

Definition OnAction (cb : listener) : M unit :=
  modify (fun c => set_actionCallbacks (actionCallbacks c ++ [cb]) c).
Definition OnUserState (cb : listener) : M unit :=
  modify (fun c => set_userStateCallbacks (userStateCallbacks c ++ [cb]) c).
Definition OnRoomState (cb : listener) : M unit :=
  modify (fun c => set_roomStateCallbacks (roomStateCallbacks c ++ [cb]) c).
Definition OnNotice (cb : listener) : M unit :=
  modify (fun c => set_noticeCallbacks (noticeCallbacks c ++ [cb]) c).
Definition OnChat (cb : listener) : M unit :=
  modify (fun c => set_chatCallbacks (chatCallbacks c ++ [cb]) c).
Definition OnResub (cb : listener) : M unit :=
  modify (fun c => set_resubCallbacks (resubCallbacks c ++ [cb]) c).
Definition OnSubscription (cb : listener) : M unit :=
  modify (fun c => set_subscriptionCallbacks (subscriptionCallbacks c ++ [cb]) c).
Definition OnSubGift (cb : listener) : M unit :=
  modify (fun c => set_subGiftCallbacks (subGiftCallbacks c ++ [cb]) c).
Definition OnCheer (cb : listener) : M unit :=
  modify (fun c => set_cheerCallbacks (cheerCallbacks c ++ [cb]) c).
Definition OnJoin (cb : listener) : M unit :=
  modify (fun c => set_joinCallbacks (joinCallbacks c ++ [cb]) c).
Definition OnPart (cb : listener) : M unit :=
  modify (fun c => set_partCallbacks (partCallbacks c ++ [cb]) c).
Definition OnWhisper (cb : listener) : M unit :=
  modify (fun c => set_whisperCallbacks (whisperCallbacks c ++ [cb]) c).

(** ** The dispatcher

    The listener lists are read under [callbackMu] and invoked outside it;
    the lock is not modelled, a method runs alone. *)

(** the byte string "\u0001ACTION" *)
Definition actionMarker : string := String (ascii_of_nat 1) "ACTION".

(** [Client.doUserStateCallbacks] *)
Definition doUserStateCallbacks (msg : Message) : M unit :=
  c ← get;
  forEach (userStateCallbacks c) (fun cb =>
    p0 ← index (Params msg) 0;
    emit (EvCall cb (argsChannelTags p0 (Tags msg)))).

(** [Client.doRoomStateCallbacks] *)
Definition doRoomStateCallbacks (msg : Message) : M unit :=
  c ← get;
  forEach (roomStateCallbacks c) (fun cb =>
    p0 ← index (Params msg) 0;
    emit (EvCall cb (argsChannelTags p0 (Tags msg)))).

(** the guarded body: [m := ""; if len(msg.Params) > 1 { m = msg.Params[1] }] *)
Definition body (msg : Message) : M string :=
  if (1 <? length (Params msg))%nat then index (Params msg) 1 else ret "".

(** [Client.doNoticeCallbacks] *)
Definition doNoticeCallbacks (msg : Message) : M unit :=
  c ← get;
  forEach (noticeCallbacks c) (fun cb =>
    m ← body msg;
    emit (EvCall cb (argsMsg m))).

(** [Client.doResubCallbacks] *)
Definition doResubCallbacks (msg : Message) : M unit :=
  c ← get;
  forEach (resubCallbacks c) (fun cb =>
    m ← body msg;
    p0 ← index (Params msg) 0;
    emit (EvCall cb (argsChannelTagsMsg p0 (Tags msg) m))).

(** [Client.doSubscriptionCallbacks] *)
Definition doSubscriptionCallbacks (msg : Message) : M unit :=
  c ← get;
  forEach (subscriptionCallbacks c) (fun cb =>
    m ← body msg;
    p0 ← index (Params msg) 0;
    emit (EvCall cb (argsChannelTagsMsg p0 (Tags msg) m))).

(** [Client.doSubGiftCallbacks] *)
Definition doSubGiftCallbacks (msg : Message) : M unit :=
  c ← get;
  forEach (subGiftCallbacks c) (fun cb =>
    m ← body msg;
    p0 ← index (Params msg) 0;
    emit (EvCall cb (argsChannelTagsMsg p0 (Tags msg) m))).

(** [Client.doCheerCallbacks] *)
Definition doCheerCallbacks (msg : Message) : M unit :=
  c ← get;
  forEach (cheerCallbacks c) (fun cb =>
    p0 ← index (Params msg) 0;
    p1 ← index (Params msg) 1;
    emit (EvCall cb (argsChannelTagsMsg p0 (Tags msg) p1))).

(** [Client.doActionCallbacks] *)
Definition doActionCallbacks (msg : Message) : M unit :=
  c ← get;
  m ← index (Params msg) 1;
  forEach (actionCallbacks c) (fun cb =>
    p0 ← index (Params msg) 0;
    text ← (match strings.sliceFrom 7 m with
            | Some s => ret s
            | None => panic SliceBoundsOutOfRange
            end);
    emit (EvCall cb (argsChannelTagsMsg p0 (Tags msg) text))).

(** [Client.doChatCallbacks] *)
Definition doChatCallbacks (msg : Message) : M unit :=
  c ← get;
  forEach (chatCallbacks c) (fun cb =>
    p0 ← index (Params msg) 0;
    p1 ← index (Params msg) 1;
    emit (EvCall cb (argsChannelTagsMsg p0 (Tags msg) p1))).

(** [Client.doJoinCallbacks] *)
Definition doJoinCallbacks (msg : Message) : M unit :=
  c ← get;
  forEach (joinCallbacks c) (fun cb =>
    p0 ← index (Params msg) 0;
    emit (EvCall cb (argsChannelUser p0 (Nick (Prefix_ msg))))).

(** [Client.doPartCallbacks] *)
Definition doPartCallbacks (msg : Message) : M unit :=
  c ← get;
  forEach (partCallbacks c) (fun cb =>
    p0 ← index (Params msg) 0;
    emit (EvCall cb (argsChannelUser p0 (Nick (Prefix_ msg))))).

(** [Client.doWhisperCallbacks] *)
Definition doWhisperCallbacks (msg : Message) : M unit :=
  c ← get;
  forEach (whisperCallbacks c) (fun cb =>
    p1 ← index (Params msg) 1;
    emit (EvCall cb (argsChannelTagsMsg (Nick (Prefix_ msg)) (Tags msg) p1))).

(** the [switch msg.Command] of [Client.doCallbacks] *)
Definition dispatch (msg : Message) : M unit :=
  let cmd := Command msg in
  if String.eqb cmd "PRIVMSG" then
    m ← body msg;
    if strings.HasPrefix m actionMarker then doActionCallbacks msg
    else if Tags msg !! "bits" is Some _ then doCheerCallbacks msg
    else doChatCallbacks msg
  else if String.eqb cmd "JOIN" then doJoinCallbacks msg
  else if String.eqb cmd "PART" then doPartCallbacks msg
  else if String.eqb cmd "NOTICE" then doNoticeCallbacks msg
  else if String.eqb cmd "USERSTATE" then doUserStateCallbacks msg
  else if String.eqb cmd "ROOMSTATE" then doRoomStateCallbacks msg
  else if String.eqb cmd "USERNOTICE" then
    let msgid := default "" (Tags msg !! "msg-id") in
    if String.eqb msgid "resub" then doResubCallbacks msg
    else if String.eqb msgid "sub" then doSubscriptionCallbacks msg
    else if String.eqb msgid "subgift" then doSubGiftCallbacks msg
    else ret tt
  else if String.eqb cmd "WHISPER" then doWhisperCallbacks msg
  else if String.eqb cmd "PING" then
    p0 ← index (Params msg) 0;
    send (fmt.Sprintf "PONG :%s" [fmt.argString p0]) []
  else ret tt.

(** ** The sender: a token bucket *)

Record bucket : Type := mkBucket { tokens : float; lastTick : time.Time }.

(** [tokens += elapsedTime.Seconds() * (maxMessages / perSeconds)] *)
Definition refill (maxMessages perSeconds : float) (b : bucket)
    (now : time.Time) : float :=
  (tokens b
   + time.Seconds (time.Sub now (lastTick b)) * (maxMessages / perSeconds))%float.

(** [time.Duration(required * float64(time.Second))] for
    [required := 1 - tokens] *)
Definition deficit (tokens : float) : time.Duration :=
  time.int64 ((1 - tokens) * time.float64 time.Second)%float.

(** the clamp and the sleep: the tokens afterwards and the duration
    handed to [time.Sleep], if it is called *)
Definition throttle (maxMessages tokens : float)
  : float * option time.Duration :=
  if PrimFloat.leb maxMessages tokens then (maxMessages, None)
  else if PrimFloat.ltb tokens 1 then (tokens, Some (deficit tokens))
  else (tokens, None).

(** the line with its delimiter *)
Definition terminated (data : string) : string :=
  if strings.HasSuffix data CRLF then data else data ++ CRLF.

(** the [case data := <-c.sendQueue] of [Client.startSendLoop]: the bucket
    for the next iteration, or [None] when the loop returns *)
Definition sendLine (maxMessages perSeconds : float) (now : time.Time)
    (data : string) (b : bucket) : M (option bucket) :=
  let data := terminated data in
  let '(tokens, sleep) := throttle maxMessages (refill maxMessages perSeconds b now) in
  (if sleep is Some d then emit (EvSleep d) else ret tt) ;;
  err ← write data;
  match err with
  | Some e =>
      log "ERROR sending: %s" [fmt.argError e] ;;
      Disconnect ;;
      ret None
  | None => ret (Some (mkBucket (tokens - 1)%float now))
  end.

(** [<-ch] where it can proceed: the element and the channel afterwards *)
Definition receive (ch : chan string) : option (string * chan string) :=
  match ch with
  | chanNil => None
  | chanMake n (x :: buf) cl => Some (x, chanMake n buf cl)
  | chanMake n [] true => Some ("", ch)
  | chanMake n [] false => None
  end.

(** The loop of [Client.startSendLoop].  [clock] holds the readings of
    [time.Now()], one per iteration.  The goroutine runs alone here: when
    both cases of the [select] can proceed the shutdown case is taken; when
    neither can, or the clock script ends, the run stops with the loop still
    alive and the result is [false].  The result is [true] when the Go
    function returns. *)
Fixpoint sendLoop (maxMessages perSeconds : float) (clock : list time.Time)
    (b : bucket) : M bool :=
  match clock with
  | [] => ret false
  | now :: clock' =>
      c ← get;
      if channel.isClosed (doneChan c) then ret true
      else match receive (sendQueue c) with
           | None => ret false
           | Some (data, q) =>
               modify (set_sendQueue q) ;;
               r ← sendLine maxMessages perSeconds now data b;
               match r with
               | None => ret true
               | Some b' => sendLoop maxMessages perSeconds clock' b'
               end
           end
  end.

(** [Client.startSendLoop]; the first reading of [clock] is [lastTick].
    The deferred [c.conn.Close()] runs when the loop returns or panics. *)
Definition startSendLoop (maxMessages perSeconds : float)
    (clock : list time.Time) : M bool :=
  c ← get;
  match conn c, clock with
  | None, _ => panic NilPointerDereference
  | Some _, [] => ret false
  | Some _, t0 :: clock' =>
      fun c =>
        match sendLoop maxMessages perSeconds clock'
                (mkBucket maxMessages t0) c with
        | Ok false c' => Ok false c'
        | r => defer connClose (fun _ => r) c
        end
  end.

(** ** Handshake, receiver and [Connect]

    [NewMessage] is the line parser of [message.go], which is outside
    [client.go]: the client is defined over any parser. *)
Section Parser.

Variable NewMessage : string -> Message.

(** [Client.doCallbacks] *)
Definition doCallbacks (line : string) : M unit :=
  dispatch (NewMessage line).

(** [Client.authenticate] *)
Definition authenticate (nick pass : string) : M (option error) :=
  err ← write (fmt.Sprintf ("PASS %s" ++ CRLF ++ "NICK %s" ++ CRLF)
                 [fmt.argString pass; fmt.argString nick]);
  match err with
  | Some e => ret (Some e)
  | None =>
      '(line, err) ← read;
      match err with
      | Some e => ret (Some e)
      | None =>
          let msg := NewMessage line in
          if negb (String.eqb (Command msg) "001") then
            doCallbacks line ;;
            ret (Some (fmt.Errorf "Unexpected server response: %s"
                         [fmt.argString line]))
          else
            write (fmt.Sprintf ("CAP REQ :%s" ++ CRLF)
                     [fmt.argString (strings.Join caps " twitch.tv/")])
      end
  end.

(** The loop of [Client.startRecvLoop].  A read that succeeds consumes one
    entry of the read script, so one more than its length is fuel enough;
    [None] is returned only when the fuel runs out. *)
Fixpoint recvLoop (fuel : nat) : M (option error) :=
  match fuel with
  | O => ret None
  | S fuel' =>
      '(line, err) ← readString;
      match err with
      | Some e => Disconnect ;; ret (Some e)
      | None =>
          log "> %s" [fmt.argString line] ;;
          doCallbacks line ;;
          recvLoop fuel'
      end
  end.

(** [Client.startRecvLoop] *)
Definition startRecvLoop : M (option error) :=
  c ← get;
  match conn c with
  | None => panic NilPointerDereference
  | Some cn => recvLoop (S (length (reads cn)))
  end.

(** [close(c.sendQueue)] *)
Definition closeSendQueue : M unit :=
  c ← get;
  q ← lift (channel.close (sendQueue c));
  modify (set_sendQueue q).

(** [Client.doPostConnect].  [go c.startSendLoop(...)] is recorded as an
    event: the sender's steps are those of [startSendLoop], their
    interleaving with the receiver is not modelled. *)
Definition doPostConnect (nick pass : string) (cn : option Conn)
    (maxMessages perSeconds : float) : M (option error) :=
  modify (set_conn cn) ;;
  modify (set_doneChan (channel.make 0)) ;;
  modify (set_sendQueue (channel.make sendBufferSize)) ;;
  defer closeSendQueue
    (err ← authenticate nick pass;
     match err with
     | Some e => ret (Some e)
     | None =>
         c ← get;
         forEach (Channels (options c)) Join ;;
         emit (EvGoSendLoop maxMessages perSeconds) ;;
         startRecvLoop
     end).

(** what [net.Dial] finds at an address *)
Definition network : Type := string -> Conn + error.

(** [net.Dial("tcp", address)] *)
Definition Dial (net : network) (address : string)
  : M (option Conn * option error) :=
  emit (EvDial address) ;;
  ret (match net address with
       | inl cn => (Some cn, None)
       | inr e => (None, Some e)
       end).

(** [Client.Connect] *)
Definition Connect (net : network) (nick pass : string) : M (option error) :=
  '(cn, err) ← doConnect
    (c ← get;
     Dial net (fmt.Sprintf "%s:%d" [fmt.argString (Host (options c));
                                     fmt.argInt (Port (options c))]));
  match err with
  | Some e => ret (Some e)
  | None => doPostConnect nick pass cn 19 30
  end.

End Parser.

(** ** The line parser *)

Module parser.

(** [s] up to the first [sep], and what follows it *)
Fixpoint cut (sep : ascii) (s : string) : string * option string :=
  match s with
  | EmptyString => ("", None)
  | String c r =>
      if Ascii.eqb c sep then ("", Some r)
      else let '(a, b) := cut sep r in (String c a, b)
  end.

(** the fields of [s] between occurrences of [sep] *)
Fixpoint fields (sep : ascii) (cur : string) (s : string) : list string :=
  match s with
  | EmptyString => [cur]
  | String c r =>
      if Ascii.eqb c sep then cur :: fields sep "" r
      else fields sep (cur ++ String c "") r
  end.

(** [s] without the line delimiter at its end *)
Fixpoint trimEOL (s : string) : string :=
  match s with
  | EmptyString => ""
  | String c r =>
      let r' := trimEOL r in
      if (String.eqb r' "" && (Ascii.eqb c CR || Ascii.eqb c LF))%bool then ""
      else String c r'
  end.

(** [key=value;key=value...] *)
Definition parseTags (s : string) : gmap string string :=
  foldr (fun kv m =>
           let '(k, v) := cut "=" kv in
           if String.eqb k "" then m else <[k := default "" v]> m)
        ∅ (fields ";" "" s).

(** [nick!user@host] *)
Definition parsePrefix (s : string) : Prefix :=
  let '(nu, host) := cut "@" s in
  let '(nick, user) := cut "!" nu in
  mkPrefix nick (default "" user) (default "" host).

(** the parameters: separated by spaces, the last one may start with a
    colon and then runs to the end of the line *)
Fixpoint parseParams (atStart : bool) (cur : string) (s : string)
  : list string :=
  match s with
  | EmptyString => if String.eqb cur "" then [] else [cur]
  | String c r =>
      if (atStart && Ascii.eqb c ":")%bool then [r]
      else if Ascii.eqb c " " then
        if String.eqb cur "" then parseParams true "" r
        else cur :: parseParams true "" r
      else parseParams false (cur ++ String c "") r
  end.

End parser.

(** Modelled from the spec: the Message Parser, [NewMessage] of
    [message.go], which is not part of [client.go].  The spec gives its
    contract: a raw line parses to a command, its ordered parameters, a tag
    map and the sender's nickname, and a line without tags or without a
    prefix parses to the empty map and to the empty nickname.  The grammar is
    that of an IRC line: [@tags], [:prefix], the command and the parameters,
    separated by spaces. *)
Definition NewMessage (raw : string) : Message :=
  let line := parser.trimEOL raw in
  let '(tags, line) :=
    match line with
    | String "@" r =>
        let '(t, rest) := parser.cut " " r in
        (parser.parseTags t, default "" rest)
    | _ => (∅, line)
    end in
  let '(prefix, line) :=
    match line with
    | String ":" r =>
        let '(p, rest) := parser.cut " " r in
        (parser.parsePrefix p, default "" rest)
    | _ => (mkPrefix "" "" "", line)
    end in
  let '(cmd, rest) := parser.cut " " line in
  mkMessage tags prefix cmd (parser.parseParams true "" (default "" rest)).



(** * Vocabulary of the properties *)

(** [m] run [k] times in a row *)
Fixpoint times (k : nat) (m : M unit) : M unit :=
  match k with
  | O => ret tt
  | S k' => m ;; times k' m
  end.


(** the data flushed to the transport, oldest first *)
Definition written (ev : list Event) : list string :=
  omap (fun e => match e with EvWrite d => Some d | _ => None end) ev.

(** the listener invocations, oldest first *)
Definition calls (ev : list Event) : list (listener * callArgs) :=
  omap (fun e => match e with EvCall cb a => Some (cb, a) | _ => None end) ev.

(** what the sender does to the transport and to the clock *)
Definition sendTrace (ev : list Event) : list Event :=
  List.filter
    (fun e => match e with EvWrite _ | EvSleep _ => true | _ => false end) ev.

(** the outbound queue of [c] is made and not closed *)
Definition queueOpen (c : Client) : Prop :=
  exists n buf, sendQueue c = chanMake n buf false.

(** [c'] has the flag, the shutdown channel and the options of [c], and an
    open outbound queue if [c] has one *)
Definition stable (c c' : Client) : Prop :=
  connected c' = connected c
  /\ doneChan c' = doneChan c
  /\ options c' = options c
  /\ (queueOpen c -> queueOpen c').

(** the client as [doPostConnect] hands it to [authenticate] *)
Definition session (cn : option Conn) (c : Client) : Client :=
  set_sendQueue (channel.make sendBufferSize)
    (set_doneChan (channel.make 0) (set_conn cn c)).

(** the address [Connect] dials *)
Definition address (c : Client) : string :=
  fmt.Sprintf "%s:%d" [fmt.argString (Host (options c));
                       fmt.argInt (Port (options c))].

(** the error of a [Connect] on a connected client *)
Definition AlreadyConnected : error := errorsNew "Already connected".

(** [c'] has the transport of [c] *)
Definition sameConn (c c' : Client) : Prop := conn c' = conn c.

(** [m] takes a client to an [R]-related one, whether it returns or panics *)
Definition keeps (R : Client -> Client -> Prop) {A} (m : M A) : Prop :=
  forall c, match m c with
            | Ok _ c' => R c c'
            | Panic _ c' => R c c'
            end.

(** the client after a dial that succeeded, as [doConnect] leaves it *)
Definition dialled (c : Client) : Client :=
  set_connected true (set_events (events c ++ [EvDial (address c)]) c).

(** the client after [c.log(format, v...)] *)
Definition withLog (format : string) (v : list fmt.arg) (c : Client) : Client :=
  if Debug (options c)
  then set_events (events c ++ [EvLog (fmt.Sprintf format v)]) c
  else c.

(** the client after a flush of [data] that returned [err] and left the
    transport as [cn] *)
Definition flushed (data : string) (err : option error) (cn : Conn)
    (c : Client) : Client :=
  let c1 := set_conn (Some cn) c in
  if err is None then set_events (events c1 ++ [EvWrite data]) c1 else c1.

(** the client after [Client.write] *)
Definition afterWrite (data : string) (err : option error) (cn : Conn)
    (c : Client) : Client :=
  flushed data err cn (withLog "< %s" [fmt.argString data] c).

(** the client after [Client.read] *)
Definition afterRead (line : string) (cn : Conn) (c : Client) : Client :=
  withLog "> %s" [fmt.argString line] (set_conn (Some cn) c).

(** the credentials [authenticate] writes first *)
Definition passNick (nick pass : string) : string :=
  fmt.Sprintf ("PASS %s" ++ CRLF ++ "NICK %s" ++ CRLF)
    [fmt.argString pass; fmt.argString nick].

(** the capability request [authenticate] writes after the welcome *)
Definition capReq : string :=
  fmt.Sprintf ("CAP REQ :%s" ++ CRLF)
    [fmt.argString (strings.Join caps " twitch.tv/")].

(** the client when [authenticate] looks at the first response [line] *)
Definition greeted (nick pass line : string) (cn1 cn2 : Conn) (c : Client)
  : Client :=
  afterRead line cn2 (afterWrite (passNick nick pass) None cn1 c).

(** the capabilities a [CAP REQ :...] line lists *)
Definition capTokens (line : string) : list string :=
  match parser.cut ":" (parser.trimEOL line) with
  | (_, Some l) => parser.fields " " "" l
  | (_, None) => []
  end.

(** a network where every address answers and the peer sends [lines], then
    closes; every write succeeds *)
Definition serving (lines : list string) : network :=
  fun _ => inl (mkConn (map (fun l => (l, None)) lines) [] false).

(** a twitch-like configuration *)
Definition twitch : Options :=
  mkOptions false 6667 "irc.chat.twitch.tv" ["#foo"].

(** the byte 0x01 that delimits a CTCP body *)
Definition SOH : string := String (ascii_of_nat 1) "".

(** the body "\u0001ACTION waves\u0001" *)
Definition actionBody : string := SOH ++ "ACTION waves" ++ SOH.

(** the line [PRIVMSG #foo :\u0001ACTION waves\u0001] *)
Definition actionLine : string := "PRIVMSG #foo :" ++ actionBody.

(** a client with an action, a chat and a cheer listener, and a whisper
    listener *)
Definition listening : Client :=
  set_whisperCallbacks [4%nat]
    (set_cheerCallbacks [3%nat]
       (set_chatCallbacks [2%nat]
          (set_actionCallbacks [1%nat] (NewClient twitch)))).

(** [listening] in a session: the flag set, the channels made *)
Definition live : Client :=
  set_connected true (session (Some (mkConn [] [] false)) listening).

(** C2 as the spec states it: the action line reaches the action listeners
    and no others, each with channel [#foo] and text [waves] *)
Definition action_text_is_waves (NewMessage : string -> Message)
    (c : Client) : Prop :=
  exists c',
    doCallbacks NewMessage actionLine c = Ok tt c'
    /\ calls (events c')
       = (calls (events c)
          ++ map (fun cb =>
                    (cb, argsChannelTagsMsg "#foo" (Tags (NewMessage actionLine))
                           "waves"))
               (actionCallbacks c))%list.


(** no byte of [s] is a percent sign *)
Fixpoint noPercent (s : string) : bool :=
  match s with
  | EmptyString => true
  | String c r => negb (Ascii.eqb c "%") && noPercent r
  end.

(** the client after [time.Sleep(d)], if the sender calls it *)
Definition slept (sleep : option time.Duration) (c : Client) : Client :=
  if sleep is Some d then set_events (events c ++ [EvSleep d]) c else c.

(** what the sender does to the transport and the clock while it sends
    [lines] at the clock readings [clock], from the bucket [b], when every
    write succeeds *)
Fixpoint bucketTrace (maxMessages perSeconds : float) (clock : list time.Time)
    (lines : list string) (b : bucket) : list Event :=
  match clock, lines with
  | now :: clock', data :: lines' =>
      let '(tokens, sleep) :=
        throttle maxMessages (refill maxMessages perSeconds b now) in
      ((if sleep is Some d then [EvSleep d] else [])
       ++ EvWrite (terminated data)
          :: bucketTrace maxMessages perSeconds clock' lines'
               (mkBucket (tokens - 1)%float now))%list
  | _, _ => []
  end.

(** a server that refuses the credentials *)
Definition loginFailed : network :=
  serving [":tmi.twitch.tv NOTICE * :Login authentication failed" ++ CRLF].

(** a transport on which the server welcomes the client *)
Definition welcomed : Conn :=
  mkConn [(":tmi.twitch.tv 001 bot :Welcome, GLHF!" ++ CRLF, None)] [] false.

(** [c] with [lines] in a fresh outbound queue *)
Definition queued (lines : list string) (c : Client) : Client :=
  set_sendQueue (chanMake sendBufferSize lines false) c.

(** the channel name [Join] and [Part] send: [#] prepended when missing *)
Definition hashed (channel : string) : string :=
  if strings.HasPrefix channel "#" then channel else "#" ++ channel.

(** [c] with [line] appended to an outbound queue of capacity [n] holding
    [buf] *)
Definition enqueued (n : nat) (buf : list string) (line : string)
    (c : Client) : Client :=
  set_sendQueue (chanMake n (buf ++ [line]) false) c.

(** the outbound queue holds no more than its capacity *)
Definition bounded (c : Client) : Prop :=
  match sendQueue c with
  | chanNil => True
  | chanMake n buf _ => (length buf <= n)%nat
  end.

(** [c'] has a bounded queue if [c] has *)
Definition staysBounded (c c' : Client) : Prop := bounded c -> bounded c'.

(** nothing was flushed to the transport, and nobody slept, between [c]
    and [c'] *)
Definition sameTraffic (c c' : Client) : Prop :=
  sendTrace (events c') = sendTrace (events c).

(** the client after [m], whether [m] returned or panicked *)
Definition after {A} (m : M A) (c : Client) : Client :=
  match m c with
  | Ok _ c' => c'
  | Panic _ c' => c'
  end.

(** the twelve listener lists *)
Definition registry (c : Client) : list (list listener) :=
  [actionCallbacks c; chatCallbacks c; resubCallbacks c; noticeCallbacks c;
   userStateCallbacks c; roomStateCallbacks c; subGiftCallbacks c;
   subscriptionCallbacks c; cheerCallbacks c; joinCallbacks c;
   partCallbacks c; whisperCallbacks c].

(** [c'] has the listener lists of [c] *)
Definition sameRegistry (c c' : Client) : Prop := registry c' = registry c.

(** the commands [doCallbacks] has a case for *)
Definition commands : list string :=
  ["PRIVMSG"; "JOIN"; "PART"; "NOTICE"; "USERSTATE"; "ROOMSTATE";
   "USERNOTICE"; "WHISPER"; "PING"].

(** the events of invoking the listeners [l] with the operands [a] *)
Definition heard (l : list listener) (a : callArgs) : list Event :=
  map (fun cb => EvCall cb a) l.

(** [c] after its events were extended by [ev] *)
Definition withEvents (ev : list Event) (c : Client) : Client :=
  set_events (events c ++ ev) c.

(** a network where nothing answers *)
Definition unreachable : network :=
  fun _ => inr (netError "connection refused").

(** [live] with one line queued and a transport whose next flush fails *)
Definition failing : Client :=
  set_conn (Some (mkConn [] [Some ErrClosed] false))
    (queued ["PRIVMSG #foo :hi"] live).

(** a server that welcomes the client, pings it and closes *)
Definition welcoming : network :=
  serving [":tmi.twitch.tv 001 bot :Welcome, GLHF!" ++ CRLF;
           "PING :tmi.twitch.tv" ++ CRLF].
(** * Properties *)

(** ** Basic facts about the monad *)

Lemma bind_Ok {A B} (m : M A) (f : A -> M B) c a c' :
  m c = Ok a c' -> bind m f c = f a c'.
Proof. unfold bind. intros ->. reflexivity. Qed.

Lemma bind_Panic {A B} (m : M A) (f : A -> M B) c p c' :
  m c = Panic p c' -> bind m f c = Panic p c'.
Proof. unfold bind. intros ->. reflexivity. Qed.

(** ** Disconnect *)

Lemma Disconnect_not_connected c :
  connected c = false -> Disconnect c = Ok tt c.
Proof. intros H. unfold Disconnect, bind, get. rewrite H. reflexivity. Qed.

Lemma Disconnect_open c n buf :
  connected c = true -> doneChan c = chanMake n buf false ->
  Disconnect c = Ok tt (set_doneChan (chanMake n buf true) (set_connected false c)).
Proof.
  intros Hc Hd. unfold Disconnect, bind, get. rewrite Hc. simpl.
  rewrite Hd. reflexivity.
Qed.

Lemma Disconnect_clears c c' :
  Disconnect c = Ok tt c' -> connected c' = false.
Proof.
  unfold Disconnect, bind, get. destruct (connected c) eqn:Hc; simpl.
  - destruct (doneChan c) as [|n buf [|]]; simpl; intros H; inversion H; reflexivity.
  - intros H. inversion H. subst. exact Hc.
Qed.

Lemma Disconnect_twice c : (Disconnect ;; Disconnect) c = Disconnect c.
Proof.
  unfold bind at 1. destruct (Disconnect c) as [[] c'|p c'] eqn:H; [|reflexivity].
  apply Disconnect_not_connected. eapply Disconnect_clears. exact H.
Qed.

(** C5: the call of [Disconnect] that finds the flag set clears it and closes
    [doneChan]; every later call returns without changing the client, so it
    closes nothing; [Disconnect] twice is [Disconnect] once, from any
    client. *)
Theorem Disconnect_idempotent (c : Client) (n : nat) (buf : list unit)
    (Hconnected : connected c = true)
    (Hdone : doneChan c = chanMake n buf false) :
  let c1 := set_doneChan (chanMake n buf true) (set_connected false c) in
  Disconnect c = Ok tt c1
  /\ connected c1 = false
  /\ doneChan c1 = chanMake n buf true
  /\ (forall k, times k Disconnect c1 = Ok tt c1)
  /\ (forall c0, (Disconnect ;; Disconnect) c0 = Disconnect c0).
Proof.
  intros c1. split; [apply Disconnect_open; assumption|].
  split; [reflexivity|]. split; [reflexivity|]. split.
  - induction k as [|k IH]; [reflexivity|]. simpl.
    erewrite bind_Ok by (apply Disconnect_not_connected; reflexivity).
    exact IH.
  - apply Disconnect_twice.
Qed.

(** ** What the I/O and the dispatcher leave alone *)

Create HintDb frame.

Section Frame.

Context (R : relation Client) `{!PreOrder R}.

Lemma keeps_ret {A} (a : A) : keeps R (ret a).
Proof. intros c. unfold ret. reflexivity. Qed.

Lemma keeps_get : keeps R get.
Proof. intros c. unfold get. reflexivity. Qed.

Lemma keeps_panic {A} p : keeps R (@panic A p).
Proof. intros c. unfold panic. reflexivity. Qed.

Lemma keeps_lift {A} (r : panicValue + A) : keeps R (lift r).
Proof. destruct r; [apply keeps_panic | apply keeps_ret]. Qed.

Lemma keeps_bind {A B} (m : M A) (f : A -> M B) :
  keeps R m -> (forall a, keeps R (f a)) -> keeps R (bind m f).
Proof.
  intros Hm Hf c. unfold bind. specialize (Hm c).
  destruct (m c) as [a c'|p c']; [|exact Hm].
  specialize (Hf a c'). destruct (f a c'); etransitivity; eassumption.
Qed.

Lemma keeps_forEach {A} (l : list A) (f : A -> M unit) :
  (forall x, keeps R (f x)) -> keeps R (forEach l f).
Proof.
  intros Hf. induction l as [|x l IH]; simpl.
  - apply keeps_ret.
  - apply keeps_bind; [apply Hf | intros _; exact IH].
Qed.

Lemma keeps_index s i : keeps R (index s i).
Proof. unfold index. destruct (s !! i); [apply keeps_ret | apply keeps_panic]. Qed.

End Frame.

#[local] Hint Resolve keeps_ret keeps_get keeps_panic keeps_lift keeps_index
  : frame.

(** one step through the syntax of a method *)
Ltac frame_step :=
  match goal with
  | |- keeps _ (bind _ _) =>
      apply keeps_bind; [solve [typeclasses eauto]| |intros ?]
  | |- keeps _ (forEach _ _) =>
      apply keeps_forEach; [solve [typeclasses eauto]|intros ?]
  | |- keeps _ (if ?b then _ else _) => destruct b
  | |- keeps _ (match ?x with _ => _ end) => destruct x
  | |- keeps _ _ => solve [auto with frame typeclass_instances]
  end.

Ltac frame := repeat frame_step.

(** the methods built on [emit] and [send] keep what these keep *)
Section Dispatcher.

Context (R : relation Client) `{!PreOrder R}.

Hypothesis keeps_emit : forall e, keeps R (emit e).
Hypothesis keeps_send : forall format args, keeps R (send format args).

#[local] Hint Resolve keeps_emit keeps_send : frame.

Lemma keeps_log format v : keeps R (log format v).
Proof. unfold log. frame. Qed.

Lemma keeps_body msg : keeps R (body msg).
Proof. unfold body. frame. Qed.

#[local] Hint Resolve keeps_log keeps_body : frame.

Lemma keeps_dispatch msg : keeps R (dispatch msg).
Proof.
  unfold dispatch, doActionCallbacks, doCheerCallbacks, doChatCallbacks,
    doJoinCallbacks, doPartCallbacks, doNoticeCallbacks, doUserStateCallbacks,
    doRoomStateCallbacks, doResubCallbacks, doSubscriptionCallbacks,
    doSubGiftCallbacks, doWhisperCallbacks.
  frame.
Qed.

End Dispatcher.

#[local] Instance stable_preorder : PreOrder stable.
Proof.
  split.
  - intros c. repeat split; auto.
  - intros c1 c2 c3 (?&?&?&?) (?&?&?&?). repeat split; try congruence. auto.
Qed.

#[local] Instance sameConn_preorder : PreOrder sameConn.
Proof. split; unfold sameConn; [intros c|intros c1 c2 c3]; congruence. Qed.

(** *** the flag, the shutdown channel, the options, the open queue *)

Lemma stable_emit e : keeps stable (emit e).
Proof. intros c. repeat split; auto. Qed.

Lemma stable_set_conn x : keeps stable (modify (set_conn x)).
Proof. intros c. repeat split; auto. Qed.

#[local] Hint Resolve stable_emit stable_set_conn : frame.

Lemma stable_log format v : keeps stable (log format v).
Proof. unfold log. frame. Qed.

#[local] Hint Resolve stable_log : frame.

Lemma stable_send format args : keeps stable (send format args).
Proof.
  intros c. unfold send, Connected, bind, get, ret.
  destruct (connected c) eqn:Hc; simpl; [|reflexivity].
  destruct (sendQueue c) as [|n buf [|]] eqn:Hq; simpl.
  - apply (stable_log _ _ c).
  - reflexivity.
  - destruct (length buf <? n)%nat; simpl.
    + unfold modify. repeat split; auto. intros _. simpl. eexists _, _. reflexivity.
    + apply (stable_log _ _ c).
Qed.

Lemma stable_dispatch msg : keeps stable (dispatch msg).
Proof. apply keeps_dispatch; [typeclasses eauto|apply stable_emit|apply stable_send]. Qed.

Lemma stable_readString : keeps stable readString.
Proof. unfold readString. frame. Qed.

Lemma stable_writeFlush data : keeps stable (writeFlush data).
Proof. unfold writeFlush. frame. Qed.

#[local] Hint Resolve stable_readString stable_writeFlush stable_dispatch : frame.

Lemma stable_write data : keeps stable (write data).
Proof. unfold write. frame. Qed.

Lemma stable_read : keeps stable read.
Proof. unfold read. frame. Qed.

#[local] Hint Resolve stable_write stable_read : frame.

Lemma keeps_authenticate NewMessage nick pass :
  keeps stable (authenticate NewMessage nick pass).
Proof. unfold authenticate, doCallbacks. frame. Qed.

(** *** the transport *)

Lemma sameConn_emit e : keeps sameConn (emit e).
Proof. intros c. reflexivity. Qed.

#[local] Hint Resolve sameConn_emit : frame.

Lemma sameConn_log format v : keeps sameConn (log format v).
Proof. unfold log. frame. Qed.

Lemma sameConn_send format args : keeps sameConn (send format args).
Proof.
  intros c. unfold send, Connected, bind, get, ret.
  destruct (connected c); simpl; [|reflexivity].
  destruct (sendQueue c) as [|n buf [|]]; simpl; try reflexivity.
  - apply (sameConn_log _ _ c).
  - destruct (length buf <? n)%nat; simpl; [reflexivity|].
    apply (sameConn_log _ _ c).
Qed.

Lemma sameConn_dispatch msg : keeps sameConn (dispatch msg).
Proof.
  apply keeps_dispatch; [typeclasses eauto|apply sameConn_emit|apply sameConn_send].
Qed.

(** ** Connect *)

Lemma doConnect_connected factory c :
  connected c = true -> doConnect factory c = Ok (None, Some AlreadyConnected) c.
Proof. intros H. unfold doConnect, bind, get. rewrite H. reflexivity. Qed.

Lemma Connect_connected NewMessage net nick pass c :
  connected c = true ->
  Connect NewMessage net nick pass c = Ok (Some AlreadyConnected) c.
Proof.
  intros H. unfold Connect.
  erewrite bind_Ok by (apply doConnect_connected; exact H). reflexivity.
Qed.

Lemma doConnect_success factory c cn c1 :
  doConnect factory c = Ok (cn, None) c1 -> connected c1 = true.
Proof.
  unfold doConnect, bind, get. destruct (connected c); [discriminate|].
  destruct (factory c) as [[cn' [e|]] c'|p c']; simpl; intros H; inversion H.
  reflexivity.
Qed.

Lemma Connect_dials NewMessage net nick pass c cn :
  connected c = false -> net (address c) = inl cn ->
  Connect NewMessage net nick pass c
  = doPostConnect NewMessage nick pass (Some cn) 19 30 (dialled c).
Proof.
  intros Hc Hnet. unfold Connect, doConnect, bind at 1 2 3, get. rewrite Hc.
  unfold bind, get, Dial, emit, modify, ret. fold (address c). rewrite Hnet.
  reflexivity.
Qed.

Lemma Connect_dial_fails NewMessage net nick pass c e :
  connected c = false -> net (address c) = inr e ->
  Connect NewMessage net nick pass c
  = Ok (Some e) (set_events (events c ++ [EvDial (address c)]) c).
Proof.
  intros Hc Hnet. unfold Connect, doConnect, bind at 1 2 3, get. rewrite Hc.
  unfold bind, get, Dial, emit, modify, ret. fold (address c). rewrite Hnet.
  reflexivity.
Qed.

Lemma session_open cn c : queueOpen (session cn c).
Proof. eexists _, _. reflexivity. Qed.

Lemma doPostConnect_failed NewMessage nick pass cn maxMessages perSeconds c e c2 :
  authenticate NewMessage nick pass (session cn c) = Ok (Some e) c2 ->
  exists n buf,
    sendQueue c2 = chanMake n buf false
    /\ doPostConnect NewMessage nick pass cn maxMessages perSeconds c
       = Ok (Some e) (set_sendQueue (chanMake n buf true) c2).
Proof.
  intros Hauth.
  pose proof (keeps_authenticate NewMessage nick pass (session cn c)) as Hk.
  rewrite Hauth in Hk. destruct Hk as (_ & _ & _ & Hq).
  destruct (Hq (session_open cn c)) as (n & buf & Hopen).
  exists n, buf. split; [exact Hopen|].
  unfold doPostConnect, bind at 1 2 3, modify. fold (session cn c).
  unfold defer, bind at 1. rewrite Hauth. unfold ret, closeSendQueue, bind, get.
  rewrite Hopen. reflexivity.
Qed.

Lemma doPostConnect_panicked NewMessage nick pass cn maxMessages perSeconds c p c2 :
  authenticate NewMessage nick pass (session cn c) = Panic p c2 ->
  exists n buf,
    sendQueue c2 = chanMake n buf false
    /\ doPostConnect NewMessage nick pass cn maxMessages perSeconds c
       = Panic p (set_sendQueue (chanMake n buf true) c2).
Proof.
  intros Hauth.
  pose proof (keeps_authenticate NewMessage nick pass (session cn c)) as Hk.
  rewrite Hauth in Hk. destruct Hk as (_ & _ & _ & Hq).
  destruct (Hq (session_open cn c)) as (n & buf & Hopen).
  exists n, buf. split; [exact Hopen|].
  unfold doPostConnect, bind at 1 2 3, modify. fold (session cn c).
  unfold defer, bind at 1. rewrite Hauth. unfold ret, closeSendQueue, bind, get.
  rewrite Hopen. reflexivity.
Qed.

(** C6: [Connected] is false on a fresh client.  On a client whose flag is
    down, when the dial answers with a transport, [doConnect] returns that
    transport and sets the flag; once the handshake on that session has
    succeeded [Connected] is true, and from there [Disconnect] returns and
    [Connected] is false again, as after any [Disconnect] that returns; a
    [Connect] on a client whose flag is set returns the "Already connected"
    error and leaves the client, its events included, as it was: nothing is
    dialled. *)
Theorem Connected_lifecycle (NewMessage : string -> Message) :
  (forall o, Connected (NewClient o) = Ok false (NewClient o))
  /\ (forall factory nick pass c cn c0,
        connected c = false ->
        factory c = Ok (cn, None) c0 ->
        doConnect factory c = Ok (cn, None) (set_connected true c0)
        /\ forall c2,
             authenticate NewMessage nick pass (session cn (set_connected true c0))
             = Ok None c2 ->
             Connected c2 = Ok true c2
             /\ exists c3, Disconnect c2 = Ok tt c3 /\ Connected c3 = Ok false c3)
  /\ (forall c c', Disconnect c = Ok tt c' -> Connected c' = Ok false c')
  /\ (forall net nick pass c,
        connected c = true ->
        Connect NewMessage net nick pass c = Ok (Some AlreadyConnected) c).
Proof.
  split; [reflexivity|]. split; [|split].
  - intros factory nick pass c cn c0 Hdown Hdial.
    assert (Hdo : doConnect factory c = Ok (cn, None) (set_connected true c0)).
    { unfold doConnect, bind at 1, get. rewrite Hdown.
      unfold bind at 1. rewrite Hdial. reflexivity. }
    split; [exact Hdo|]. intros c2 Hauth.
    pose proof (keeps_authenticate NewMessage nick pass
                  (session cn (set_connected true c0))) as Hk.
    rewrite Hauth in Hk. destruct Hk as (Hc & Hd & _). simpl in Hc, Hd.
    assert (Hc2 : connected c2 = true) by exact Hc.
    split; [unfold Connected, bind, get, ret; rewrite Hc2; reflexivity|].
    eexists. split; [apply (Disconnect_open c2 0 []); assumption|reflexivity].
  - intros c c' H. apply Disconnect_clears in H.
    unfold Connected, bind, get, ret. rewrite H. reflexivity.
  - intros. apply Connect_connected. assumption.
Qed.


(** ** The handshake *)

Lemma log_eq format v c : log format v c = Ok tt (withLog format v c).
Proof.
  unfold log, withLog, bind, get, emit, modify, ret.
  destruct (Debug (options c)); reflexivity.
Qed.

Lemma writeFlush_eq data c cn err cn' :
  conn c = Some cn -> connClosed cn = false -> nextFlush cn = (err, cn') ->
  writeFlush data c = Ok err (flushed data err cn' c).
Proof.
  intros Hc Hcl Hf. unfold writeFlush, bind at 1, get. rewrite Hc, Hcl, Hf.
  unfold flushed, bind, emit, modify, ret. destruct err; reflexivity.
Qed.

Lemma withLog_conn format v c : conn (withLog format v c) = conn c.
Proof. unfold withLog. destruct (Debug (options c)); reflexivity. Qed.

Lemma write_eq data c cn err cn' :
  conn c = Some cn -> connClosed cn = false -> nextFlush cn = (err, cn') ->
  write data c = Ok err (afterWrite data err cn' c).
Proof.
  intros Hc Hcl Hf. unfold write.
  erewrite bind_Ok by apply log_eq.
  apply writeFlush_eq with (cn := cn); [rewrite withLog_conn|..]; assumption.
Qed.

Lemma read_eq c cn line err cn' :
  conn c = Some cn -> connClosed cn = false ->
  nextRead cn = ((line, err), cn') ->
  read c = Ok (line, err) (afterRead line cn' c).
Proof.
  intros Hc Hcl Hr. unfold read, readString, bind at 1 2, get.
  rewrite Hc, Hcl, Hr. unfold bind, modify, ret. rewrite log_eq. reflexivity.
Qed.

Lemma nextFlush_closed cn err cn' :
  nextFlush cn = (err, cn') -> connClosed cn' = connClosed cn.
Proof.
  unfold nextFlush. destruct (writes cn); intros H; inversion H; reflexivity.
Qed.

Lemma nextRead_closed cn r cn' :
  nextRead cn = (r, cn') -> connClosed cn' = connClosed cn.
Proof.
  unfold nextRead. destruct (reads cn); intros H; inversion H; reflexivity.
Qed.

Lemma afterWrite_conn data err cn c : conn (afterWrite data err cn c) = Some cn.
Proof. unfold afterWrite, flushed. destruct err; reflexivity. Qed.

Lemma afterRead_conn line cn c : conn (afterRead line cn c) = Some cn.
Proof. unfold afterRead. rewrite withLog_conn. reflexivity. Qed.

Lemma append_empty_r (s : string) : s ++ "" = s.
Proof.
  induction s as [|a s IH]; [reflexivity|].
  change (String a (s ++ "") = String a s). rewrite IH. reflexivity.
Qed.

Lemma Errorf_unexpected line :
  fmt.Errorf "Unexpected server response: %s" [fmt.argString line]
  = errorsNew ("Unexpected server response: " ++ line).
Proof.
  unfold fmt.Errorf, fmt.Sprintf. simpl. rewrite append_empty_r. reflexivity.
Qed.

Lemma authenticate_write_error NewMessage nick pass c cn e cn1 :
  conn c = Some cn -> connClosed cn = false ->
  nextFlush cn = (Some e, cn1) ->
  authenticate NewMessage nick pass c
  = Ok (Some e) (afterWrite (passNick nick pass) (Some e) cn1 c).
Proof.
  intros Hc Hcl Hf. unfold authenticate. fold (passNick nick pass).
  erewrite bind_Ok by (eapply write_eq; eassumption). reflexivity.
Qed.

Lemma authenticate_read_error NewMessage nick pass c cn cn1 line e cn2 :
  conn c = Some cn -> connClosed cn = false ->
  nextFlush cn = (None, cn1) ->
  nextRead cn1 = ((line, Some e), cn2) ->
  authenticate NewMessage nick pass c
  = Ok (Some e) (greeted nick pass line cn1 cn2 c).
Proof.
  intros Hc Hcl Hf Hr. unfold authenticate. fold (passNick nick pass).
  erewrite bind_Ok by (eapply write_eq; eassumption). cbv beta iota.
  erewrite bind_Ok.
  2:{ eapply read_eq; [apply afterWrite_conn| |exact Hr].
      erewrite nextFlush_closed; eassumption. }
  reflexivity.
Qed.

(** a first response other than "001" goes through the dispatcher, and when
    the dispatcher returns, [authenticate] returns the error with the line *)
Lemma authenticate_unexpected NewMessage nick pass c cn cn1 line cn2 :
  conn c = Some cn -> connClosed cn = false ->
  nextFlush cn = (None, cn1) ->
  nextRead cn1 = ((line, None), cn2) ->
  Command (NewMessage line) <> "001" ->
  authenticate NewMessage nick pass c
  = (doCallbacks NewMessage line ;;
     ret (Some (errorsNew ("Unexpected server response: " ++ line))))
      (greeted nick pass line cn1 cn2 c).
Proof.
  intros Hc Hcl Hf Hr Hcmd. unfold authenticate. fold (passNick nick pass).
  erewrite bind_Ok by (eapply write_eq; eassumption). cbv beta iota.
  erewrite bind_Ok.
  2:{ eapply read_eq; [apply afterWrite_conn| |exact Hr].
      erewrite nextFlush_closed; eassumption. }
  cbv beta iota zeta. apply String.eqb_neq in Hcmd. rewrite Hcmd. cbn [negb].
  rewrite Errorf_unexpected. reflexivity.
Qed.

Lemma capReq_eq :
  capReq = "CAP REQ :membership twitch.tv/commands twitch.tv/tags" ++ CRLF.
Proof. reflexivity. Qed.

Lemma authenticate_welcome NewMessage nick pass c cn cn1 line cn2 err cn3 :
  conn c = Some cn -> connClosed cn = false ->
  nextFlush cn = (None, cn1) ->
  nextRead cn1 = ((line, None), cn2) ->
  Command (NewMessage line) = "001" ->
  nextFlush cn2 = (err, cn3) ->
  authenticate NewMessage nick pass c
  = Ok err (afterWrite capReq err cn3 (greeted nick pass line cn1 cn2 c)).
Proof.
  intros Hc Hcl Hf Hr Hcmd Hf2. unfold authenticate. fold (passNick nick pass).
  erewrite bind_Ok by (eapply write_eq; eassumption). cbv beta iota.
  erewrite bind_Ok.
  2:{ eapply read_eq; [apply afterWrite_conn| |exact Hr].
      erewrite nextFlush_closed; eassumption. }
  cbv beta iota zeta. rewrite Hcmd. rewrite String.eqb_refl. cbn [negb]. fold capReq.
  eapply write_eq; [apply afterRead_conn| |exact Hf2].
  erewrite nextRead_closed by eassumption.
  erewrite nextFlush_closed; eassumption.
Qed.

Lemma written_app ev1 ev2 : written (ev1 ++ ev2) = (written ev1 ++ written ev2)%list.
Proof. apply omap_app. Qed.

Lemma written_withLog format v c :
  written (events (withLog format v c)) = written (events c).
Proof.
  unfold withLog. destruct (Debug (options c)); [|reflexivity].
  simpl. rewrite written_app. simpl. apply app_nil_r.
Qed.

Lemma written_afterWrite data cn c :
  written (events (afterWrite data None cn c)) = (written (events c) ++ [data])%list.
Proof.
  unfold afterWrite, flushed. simpl. rewrite written_app, written_withLog.
  reflexivity.
Qed.

Lemma written_afterRead line cn c :
  written (events (afterRead line cn c)) = written (events c).
Proof. unfold afterRead. rewrite written_withLog. reflexivity. Qed.

(** C4: after the welcome line "001" the handshake writes the credentials
    and then exactly the line
    [CAP REQ :membership twitch.tv/commands twitch.tv/tags]: of the three
    capabilities it lists, the first, [membership], does not carry the
    [twitch.tv/] prefix. *)
Theorem cap_request_first_capability_unprefixed
    (NewMessage : string -> Message) (nick pass line : string) (c : Client)
    (cn cn1 cn2 cn3 : Conn)
    (Hconn : conn c = Some cn) (Hopen : connClosed cn = false)
    (Hcred : nextFlush cn = (None, cn1))
    (Hread : nextRead cn1 = ((line, None), cn2))
    (Hwelcome : Command (NewMessage line) = "001")
    (Hcap : nextFlush cn2 = (None, cn3)) :
  let request := "CAP REQ :membership twitch.tv/commands twitch.tv/tags" ++ CRLF in
  (exists c',
     authenticate NewMessage nick pass c = Ok None c'
     /\ written (events c')
        = (written (events c) ++ [passNick nick pass; request])%list)
  /\ capTokens request = ["membership"; "twitch.tv/commands"; "twitch.tv/tags"]
  /\ strings.HasPrefix "membership" "twitch.tv/" = false.
Proof.
  intros request. split; [|split; reflexivity].
  eexists. split.
  - eapply authenticate_welcome; eassumption.
  - rewrite written_afterWrite. unfold greeted.
    rewrite written_afterRead, written_afterWrite, <- app_assoc. reflexivity.
Qed.

(** a first response other than "001" on which the dispatcher returns:
    [Connect] returns the error that carries the line *)
Lemma Connect_unexpected_returns NewMessage net nick pass c cn cn1 line cn2 c2 :
  connected c = false -> net (address c) = inl cn ->
  connClosed cn = false ->
  nextFlush cn = (None, cn1) ->
  nextRead cn1 = ((line, None), cn2) ->
  Command (NewMessage line) <> "001" ->
  doCallbacks NewMessage line
    (greeted nick pass line cn1 cn2 (session (Some cn) (dialled c))) = Ok tt c2 ->
  exists n buf,
    sendQueue c2 = chanMake n buf false
    /\ Connect NewMessage net nick pass c
       = Ok (Some (errorsNew ("Unexpected server response: " ++ line)))
           (set_sendQueue (chanMake n buf true) c2).
Proof.
  intros Hc Hnet Hcl Hf Hr Hcmd Hdisp.
  rewrite (Connect_dials _ _ _ _ _ cn) by assumption.
  apply doPostConnect_failed.
  rewrite (authenticate_unexpected _ _ _ _ cn cn1 line cn2)
    by (assumption || reflexivity).
  erewrite bind_Ok by exact Hdisp. reflexivity.
Qed.

(** C7: a first response other than "001" goes through the dispatcher before
    [Connect] can return its error, and when the dispatcher panics on that
    line, [Connect] panics: no error is returned. *)
Theorem unexpected_response_panic (NewMessage : string -> Message)
    (net : network) (nick pass line : string) (c c2 : Client)
    (cn cn1 cn2 : Conn) (p : panicValue)
    (Hfresh : connected c = false)
    (Hdial : net (address c) = inl cn)
    (Hopen : connClosed cn = false)
    (Hcred : nextFlush cn = (None, cn1))
    (Hread : nextRead cn1 = ((line, None), cn2))
    (Hcmd : Command (NewMessage line) <> "001")
    (Hpanic : doCallbacks NewMessage line
                (greeted nick pass line cn1 cn2 (session (Some cn) (dialled c)))
              = Panic p c2) :
  exists n buf,
    sendQueue c2 = chanMake n buf false
    /\ Connect NewMessage net nick pass c
       = Panic p (set_sendQueue (chanMake n buf true) c2).
Proof.
  rewrite (Connect_dials _ _ _ _ _ cn) by assumption.
  apply doPostConnect_panicked.
  rewrite (authenticate_unexpected _ _ _ _ cn cn1 line cn2)
    by (assumption || reflexivity).
  erewrite bind_Panic by exact Hpanic. reflexivity.
Qed.

(** ** The dispatcher *)

Lemma forEach_ext {A} (l : list A) (f g : A -> M unit) c :
  (forall x c, f x c = g x c) -> forEach l f c = forEach l g c.
Proof.
  intros H. revert c. induction l as [|x l IH]; intros c; [reflexivity|].
  simpl. unfold bind. rewrite H. destruct (g x c); [apply IH|reflexivity].
Qed.

Lemma set_events_id c : set_events (events c) c = c.
Proof. destruct c. reflexivity. Qed.

Lemma forEach_emit {A} (l : list A) (f : A -> Event) c :
  forEach l (fun x => emit (f x)) c
  = Ok tt (set_events (events c ++ map f l) c).
Proof.
  revert c. induction l as [|x l IH]; intros c; simpl.
  - rewrite app_nil_r, set_events_id. reflexivity.
  - unfold bind, emit at 1, modify. rewrite IH. simpl.
    rewrite <- app_assoc. reflexivity.
Qed.

Lemma forEach_panic {A} (l : list A) (f : A -> M unit) p c :
  l <> [] -> (forall x, f x c = Panic p c) -> forEach l f c = Panic p c.
Proof.
  intros Hl Hf. destruct l as [|x l]; [congruence|].
  simpl. unfold bind. rewrite Hf. reflexivity.
Qed.

Lemma index_Some s i x c : s !! i = Some x -> index s i c = Ok x c.
Proof. unfold index. intros ->. reflexivity. Qed.

Lemma index_None s i c : s !! i = None -> index s i c = Panic IndexOutOfRange c.
Proof. unfold index. intros ->. reflexivity. Qed.

Lemma body_eq msg c : body msg c = Ok (default "" (Params msg !! 1%nat)) c.
Proof.
  unfold body. destruct (Params msg) as [|p0 [|p1 rest]]; reflexivity.
Qed.

Lemma calls_app ev1 ev2 : calls (ev1 ++ ev2) = (calls ev1 ++ calls ev2)%list.
Proof. apply omap_app. Qed.

Lemma calls_map (f : listener -> callArgs) l :
  calls (map (fun cb => EvCall cb (f cb)) l) = map (fun cb => (cb, f cb)) l.
Proof. induction l as [|x l IH]; simpl; [|rewrite <- IH]; reflexivity. Qed.

(** the action path: every action listener gets the channel and the body
    from its eighth byte on *)
Lemma doActionCallbacks_eq msg c ch m rest text :
  Params msg = ch :: m :: rest ->
  strings.sliceFrom 7 m = Some text ->
  doActionCallbacks msg c
  = Ok tt (set_events
             (events c
              ++ map (fun cb => EvCall cb (argsChannelTagsMsg ch (Tags msg) text))
                   (actionCallbacks c)) c).
Proof.
  intros Hp Hs. unfold doActionCallbacks, bind at 1 2, get. rewrite Hp. simpl.
  rewrite <- forEach_emit. apply forEach_ext. intros cb c0.
  unfold bind, index. simpl. rewrite Hs. reflexivity.
Qed.

Lemma dispatch_PRIVMSG msg c :
  Command msg = "PRIVMSG" ->
  dispatch msg c
  = (if strings.HasPrefix (default "" (Params msg !! 1%nat)) actionMarker
     then doActionCallbacks msg
     else if Tags msg !! "bits" is Some _ then doCheerCallbacks msg
          else doChatCallbacks msg) c.
Proof.
  intros H. unfold dispatch. rewrite H. simpl.
  erewrite bind_Ok by apply body_eq. reflexivity.
Qed.

(** C2: when the line [PRIVMSG #foo :\u0001ACTION waves\u0001] parses to the
    command PRIVMSG with the parameters [#foo] and the body, the dispatcher
    invokes the action listeners, in order of registration, and nothing
    else; each gets the channel [#foo], the tags, and the body without its
    first 7 bytes: a space, [waves] and the closing 0x01 byte. *)
Theorem action_dispatch (NewMessage : string -> Message) (c : Client)
    (tags : gmap string string) (pfx : Prefix)
    (Hparse : NewMessage actionLine
              = mkMessage tags pfx "PRIVMSG" ["#foo"; actionBody]) :
  let text := " waves" ++ SOH in
  let heard := map (fun cb => EvCall cb (argsChannelTagsMsg "#foo" tags text))
                 (actionCallbacks c) in
  doCallbacks NewMessage actionLine c = Ok tt (set_events (events c ++ heard) c)
  /\ calls heard
     = map (fun cb => (cb, argsChannelTagsMsg "#foo" tags text)) (actionCallbacks c)
  /\ text <> "waves".
Proof.
  intros text heard. split; [|split].
  - unfold doCallbacks. rewrite dispatch_PRIVMSG by (rewrite Hparse; reflexivity).
    rewrite Hparse. simpl. subst heard.
    apply (doActionCallbacks_eq (mkMessage tags pfx "PRIVMSG" ["#foo"; actionBody])
             c "#foo" actionBody [] text); reflexivity.
  - apply calls_map.
  - discriminate.
Qed.

(** ** The reply to PING *)

Lemma Sprintf_PONG p : fmt.Sprintf "PONG :%s" [fmt.argString p] = "PONG :" ++ p.
Proof. unfold fmt.Sprintf. simpl. rewrite append_empty_r. reflexivity. Qed.

Lemma doPrintf_literal f :
  noPercent f = true -> fmt.doPrintf fmt.inText f [] = f.
Proof.
  induction f as [|a f IH]; [reflexivity|]. simpl.
  destruct (Ascii.eqb a "%"); [discriminate|]. simpl. intros H.
  rewrite IH by exact H. reflexivity.
Qed.

Lemma send_enqueues format args c n buf :
  connected c = true -> sendQueue c = chanMake n buf false ->
  (length buf < n)%nat ->
  send format args c
  = Ok tt (set_sendQueue (chanMake n (buf ++ [fmt.Sprintf format args]) false) c).
Proof.
  intros Hc Hq Hlen. unfold send, Connected, bind, get, ret. rewrite Hc. simpl.
  rewrite Hq. simpl. apply Nat.ltb_lt in Hlen. rewrite Hlen. reflexivity.
Qed.

Lemma send_not_connected format args c :
  connected c = false -> send format args c = Ok tt c.
Proof. intros Hc. unfold send, Connected, bind, get, ret. rewrite Hc. reflexivity. Qed.

Lemma send_closed format args c n buf :
  connected c = true -> sendQueue c = chanMake n buf true ->
  send format args c = Panic SendOnClosedChannel c.
Proof.
  intros Hc Hq. unfold send, Connected, bind, get, ret. rewrite Hc. simpl.
  rewrite Hq. reflexivity.
Qed.

Lemma dispatch_PING msg c :
  Command msg = "PING" ->
  dispatch msg c
  = (p0 ← index (Params msg) 0;
     send (fmt.Sprintf "PONG :%s" [fmt.argString p0]) []) c.
Proof. intros H. unfold dispatch. rewrite H. reflexivity. Qed.

(** C3: on a PING with payload [p], a connected client whose outbound queue
    has room enqueues exactly one line, and that line is "PONG :" followed
    by [p] after a second pass through [fmt.Sprintf] with no operands: the
    payload itself when it holds no percent sign, but [100%!(NOVERB)] for
    the payload [100%]. *)
Theorem ping_reply_formatted_twice (NewMessage : string -> Message)
    (line p : string) (rest : list string) (c : Client) (n : nat)
    (buf : list string)
    (Hcmd : Command (NewMessage line) = "PING")
    (Hparams : Params (NewMessage line) = p :: rest)
    (Hconnected : connected c = true)
    (Hqueue : sendQueue c = chanMake n buf false)
    (Hroom : (length buf < n)%nat) :
  doCallbacks NewMessage line c
  = Ok tt (set_sendQueue
             (chanMake n (buf ++ [fmt.Sprintf ("PONG :" ++ p) []]) false) c)
  /\ (noPercent p = true -> fmt.Sprintf ("PONG :" ++ p) [] = "PONG :" ++ p)
  /\ (p = "100%" -> fmt.Sprintf ("PONG :" ++ p) [] = "PONG :100%!(NOVERB)")
  /\ "PONG :100%!(NOVERB)" <> "PONG :100%".
Proof.
  split; [|split; [|split]].
  - unfold doCallbacks. rewrite dispatch_PING by exact Hcmd. rewrite Hparams.
    erewrite bind_Ok by (apply index_Some; reflexivity).
    rewrite Sprintf_PONG. apply send_enqueues; assumption.
  - intros Hp. unfold fmt.Sprintf. apply doPrintf_literal. simpl. exact Hp.
  - intros ->. reflexivity.
  - discriminate.
Qed.

(** ** Where the dispatcher panics and where it does not *)

Lemma dispatch_WHISPER msg c :
  Command msg = "WHISPER" -> dispatch msg c = doWhisperCallbacks msg c.
Proof. intros H. unfold dispatch. rewrite H. reflexivity. Qed.

Lemma dispatch_NOTICE msg c :
  Command msg = "NOTICE" -> dispatch msg c = doNoticeCallbacks msg c.
Proof. intros H. unfold dispatch. rewrite H. reflexivity. Qed.

Lemma dispatch_USERNOTICE msg c :
  Command msg = "USERNOTICE" ->
  dispatch msg c
  = (let msgid := default "" (Tags msg !! "msg-id") in
     if String.eqb msgid "resub" then doResubCallbacks msg
     else if String.eqb msgid "sub" then doSubscriptionCallbacks msg
     else if String.eqb msgid "subgift" then doSubGiftCallbacks msg
     else ret tt) c.
Proof. intros H. unfold dispatch. rewrite H. reflexivity. Qed.

Lemma lookup_short (s : list string) : (length s < 2)%nat -> s !! 1%nat = None.
Proof. intros H. apply lookup_ge_None. lia. Qed.

Lemma doChatCallbacks_panic msg c :
  (length (Params msg) < 2)%nat -> chatCallbacks c <> [] ->
  doChatCallbacks msg c = Panic IndexOutOfRange c.
Proof.
  intros Hlen Hcb. unfold doChatCallbacks, bind at 1, get.
  apply forEach_panic; [exact Hcb|]. intros cb. unfold bind, index.
  destruct (Params msg) as [|p0 [|p1 rest]]; simpl in *; try reflexivity; lia.
Qed.

Lemma doWhisperCallbacks_panic msg c :
  (length (Params msg) < 2)%nat -> whisperCallbacks c <> [] ->
  doWhisperCallbacks msg c = Panic IndexOutOfRange c.
Proof.
  intros Hlen Hcb. unfold doWhisperCallbacks, bind at 1, get.
  apply forEach_panic; [exact Hcb|]. intros cb.
  erewrite bind_Panic by (apply index_None, lookup_short, Hlen). reflexivity.
Qed.

Lemma doNoticeCallbacks_eq msg c :
  doNoticeCallbacks msg c
  = Ok tt (set_events
             (events c
              ++ map (fun cb => EvCall cb (argsMsg (default "" (Params msg !! 1%nat))))
                   (noticeCallbacks c)) c).
Proof.
  unfold doNoticeCallbacks, bind at 1, get. rewrite <- forEach_emit.
  apply forEach_ext. intros cb c0. erewrite bind_Ok by apply body_eq. reflexivity.
Qed.

(** the body of a resub, subscription or subgift loop *)
Lemma guarded_loop_eq msg ch rest (l : list listener) c :
  Params msg = ch :: rest ->
  forEach l (fun cb =>
    m ← body msg;
    p0 ← index (Params msg) 0;
    emit (EvCall cb (argsChannelTagsMsg p0 (Tags msg) m))) c
  = Ok tt (set_events
             (events c
              ++ map (fun cb => EvCall cb (argsChannelTagsMsg ch (Tags msg)
                                             (default "" (rest !! 0%nat)))) l) c).
Proof.
  intros Hp. rewrite <- forEach_emit. apply forEach_ext. intros cb c0.
  erewrite bind_Ok by apply body_eq. rewrite Hp.
  erewrite bind_Ok by (apply index_Some; reflexivity). reflexivity.
Qed.

(** C10: the dispatcher panics with an index out of range on a PRIVMSG with
    fewer than two parameters and no [bits] tag when a chat listener is
    registered, on a WHISPER with fewer than two parameters when a whisper
    listener is registered, and on a PING without parameters; on a NOTICE it
    always returns, and on a resub, a subscription and a subgift with a
    channel parameter it returns, the listeners getting the second parameter
    as the body, or the empty string when there is none. *)
Theorem dispatch_not_total (NewMessage : string -> Message) (line : string)
    (c : Client) :
  let msg := NewMessage line in
  let heard (l : list listener) (a : callArgs) :=
    Ok tt (set_events (events c ++ map (fun cb => EvCall cb a) l) c) in
  (Command msg = "PRIVMSG" -> (length (Params msg) < 2)%nat ->
   Tags msg !! "bits" = None -> chatCallbacks c <> [] ->
   doCallbacks NewMessage line c = Panic IndexOutOfRange c)
  /\ (Command msg = "WHISPER" -> (length (Params msg) < 2)%nat ->
      whisperCallbacks c <> [] ->
      doCallbacks NewMessage line c = Panic IndexOutOfRange c)
  /\ (Command msg = "PING" -> Params msg = [] ->
      doCallbacks NewMessage line c = Panic IndexOutOfRange c)
  /\ (Command msg = "NOTICE" ->
      doCallbacks NewMessage line c
      = heard (noticeCallbacks c) (argsMsg (default "" (Params msg !! 1%nat))))
  /\ (forall ch rest,
        Command msg = "USERNOTICE" -> Params msg = ch :: rest ->
        let a := argsChannelTagsMsg ch (Tags msg) (default "" (rest !! 0%nat)) in
        (Tags msg !! "msg-id" = Some "resub" ->
         doCallbacks NewMessage line c = heard (resubCallbacks c) a)
        /\ (Tags msg !! "msg-id" = Some "sub" ->
            doCallbacks NewMessage line c = heard (subscriptionCallbacks c) a)
        /\ (Tags msg !! "msg-id" = Some "subgift" ->
            doCallbacks NewMessage line c = heard (subGiftCallbacks c) a)).
Proof.
  intros msg heard. unfold doCallbacks. fold msg.
  split; [|split; [|split; [|split]]].
  - intros Hcmd Hlen Hbits Hcb. rewrite dispatch_PRIVMSG by exact Hcmd.
    rewrite (lookup_short _ Hlen), Hbits. simpl.
    apply doChatCallbacks_panic; assumption.
  - intros Hcmd Hlen Hcb. rewrite dispatch_WHISPER by exact Hcmd.
    apply doWhisperCallbacks_panic; assumption.
  - intros Hcmd Hp. rewrite dispatch_PING by exact Hcmd. rewrite Hp. reflexivity.
  - intros Hcmd. rewrite dispatch_NOTICE by exact Hcmd. apply doNoticeCallbacks_eq.
  - intros ch rest Hcmd Hp.
    rewrite dispatch_USERNOTICE by exact Hcmd.
    split; [|split]; intros Hid; rewrite Hid; simpl;
      [unfold doResubCallbacks|unfold doSubscriptionCallbacks|unfold doSubGiftCallbacks];
      unfold bind at 1, get; apply guarded_loop_eq; exact Hp.
Qed.

(** C2, as the spec states it, fails on the client [listening]: its action
    listener is handed a text that is not [waves]. *)
Lemma action_text_is_not_waves : ~ action_text_is_waves NewMessage listening.
Proof.
  intros (c' & Hrun & Hcalls). vm_compute in Hrun. inversion Hrun; subst c'.
  vm_compute in Hcalls. discriminate Hcalls.
Qed.

(** ** Say and Whisper *)

Lemma Say_empty msg c : Say "" msg c = Panic IndexOutOfRange c.
Proof. reflexivity. Qed.

Lemma Say_send channel msg c :
  channel <> "" ->
  exists channel',
    Say channel msg c
    = send (fmt.Sprintf "PRIVMSG %s :%s"
              [fmt.argString channel'; fmt.argString msg]) [] c.
Proof.
  intros Hne. destruct channel as [|b channel]; [congruence|].
  unfold Say. simpl. eexists. reflexivity.
Qed.

Lemma send_returns format args c :
  connected c = false \/ (forall n buf, sendQueue c <> chanMake n buf true) ->
  exists c', send format args c = Ok tt c'.
Proof.
  intros H. destruct (connected c) eqn:Hc.
  - destruct H as [H|H]; [discriminate|].
    unfold send, Connected, bind, get, ret. rewrite Hc. simpl.
    destruct (sendQueue c) as [|n buf [|]] eqn:Hq; simpl.
    + rewrite log_eq. eexists. reflexivity.
    + exfalso. apply (H n buf). reflexivity.
    + destruct (length buf <? n)%nat; simpl.
      * eexists. reflexivity.
      * rewrite log_eq. eexists. reflexivity.
  - rewrite send_not_connected by exact Hc. eexists. reflexivity.
Qed.

(** with a channel that is not empty, [Say] returns whenever the client is
    not connected or its outbound queue is not closed *)
Lemma Say_returns channel msg c :
  channel <> "" ->
  connected c = false \/ (forall n buf, sendQueue c <> chanMake n buf true) ->
  exists c', Say channel msg c = Ok tt c'.
Proof.
  intros Hne H. destruct (Say_send channel msg c Hne) as (ch' & ->).
  apply send_returns. exact H.
Qed.

(** C9: [Say] with the empty channel panics on every client, before the
    connection is looked at.  With a channel that is not empty it is not
    total: after a [Connect] whose handshake failed, the flag is set and the
    outbound queue is closed, and there [Say] with any channel that is not
    empty, and [Whisper], panic on the send to the closed queue. *)
Theorem Say_after_failed_handshake (NewMessage : string -> Message)
    (net : network) (nick pass : string) (c c2 : Client) (cn : Conn) (e : error)
    (Hfresh : connected c = false)
    (Hdial : net (address c) = inl cn)
    (Hauth : authenticate NewMessage nick pass (session (Some cn) (dialled c))
             = Ok (Some e) c2) :
  exists c3,
    Connect NewMessage net nick pass c = Ok (Some e) c3
    /\ (forall channel msg,
          channel <> "" -> Say channel msg c3 = Panic SendOnClosedChannel c3)
    /\ (forall user msg, Whisper user msg c3 = Panic SendOnClosedChannel c3)
    /\ (forall msg c0, Say "" msg c0 = Panic IndexOutOfRange c0).
Proof.
  destruct (doPostConnect_failed NewMessage nick pass (Some cn) 19 30
              (dialled c) e c2 Hauth) as (n & buf & Hopen & Hpost).
  pose proof (keeps_authenticate NewMessage nick pass
                (session (Some cn) (dialled c))) as Hk.
  rewrite Hauth in Hk. destruct Hk as (Hc & _). simpl in Hc.
  set (c3 := set_sendQueue (chanMake n buf true) c2).
  assert (Hsay : forall channel msg,
             channel <> "" -> Say channel msg c3 = Panic SendOnClosedChannel c3).
  { intros channel msg Hne. destruct (Say_send channel msg c3 Hne) as (ch' & ->).
    apply (send_closed _ _ c3 n buf); [exact Hc|reflexivity]. }
  exists c3. split; [rewrite (Connect_dials _ _ _ _ _ cn) by assumption; exact Hpost|].
  split; [exact Hsay|]. split; [|intros; apply Say_empty].
  intros user msg. unfold Whisper. apply Hsay. discriminate.
Qed.

(** ** The sender *)

Lemma sendTrace_app ev1 ev2 :
  sendTrace (ev1 ++ ev2) = (sendTrace ev1 ++ sendTrace ev2)%list.
Proof. apply List.filter_app. Qed.

Lemma sendTrace_withLog format v c :
  sendTrace (events (withLog format v c)) = sendTrace (events c).
Proof.
  unfold withLog. destruct (Debug (options c)); [|reflexivity].
  simpl. rewrite sendTrace_app. simpl. apply app_nil_r.
Qed.

Lemma sendTrace_slept sleep c :
  sendTrace (events (slept sleep c))
  = (sendTrace (events c) ++ if sleep is Some d then [EvSleep d] else [])%list.
Proof.
  destruct sleep as [d|]; simpl.
  - rewrite sendTrace_app. reflexivity.
  - rewrite app_nil_r. reflexivity.
Qed.

Lemma sendTrace_afterWrite data cn c :
  sendTrace (events (afterWrite data None cn c))
  = (sendTrace (events c) ++ [EvWrite data])%list.
Proof.
  unfold afterWrite, flushed. simpl. rewrite sendTrace_app, sendTrace_withLog.
  reflexivity.
Qed.

Lemma withLog_doneChan format v c : doneChan (withLog format v c) = doneChan c.
Proof. unfold withLog. destruct (Debug (options c)); reflexivity. Qed.

Lemma withLog_sendQueue format v c : sendQueue (withLog format v c) = sendQueue c.
Proof. unfold withLog. destruct (Debug (options c)); reflexivity. Qed.

Lemma nextFlush_quiet cn : writes cn = [] -> nextFlush cn = (None, cn).
Proof. unfold nextFlush. intros ->. reflexivity. Qed.

(** one line sent with success *)
Lemma sendLine_eq maxMessages perSeconds now data b c cn :
  conn c = Some cn -> connClosed cn = false -> writes cn = [] ->
  let r := throttle maxMessages (refill maxMessages perSeconds b now) in
  sendLine maxMessages perSeconds now data b c
  = Ok (Some (mkBucket (r.1 - 1)%float now))
      (afterWrite (terminated data) None cn (slept r.2 c)).
Proof.
  intros Hc Hcl Hw r. unfold sendLine. fold r. destruct r as [tok sleep].
  assert (Hs : (if sleep is Some d then emit (EvSleep d) else ret tt) c
               = Ok tt (slept sleep c)) by (destruct sleep; reflexivity).
  erewrite bind_Ok by exact Hs.
  erewrite bind_Ok.
  2:{ eapply write_eq; [|exact Hcl|apply nextFlush_quiet, Hw].
      destruct sleep; exact Hc. }
  reflexivity.
Qed.

Lemma sendLoop_trace maxMessages perSeconds clock :
  forall lines b c cn n rest cl,
    (length clock <= length lines)%nat ->
    channel.isClosed (doneChan c) = false ->
    sendQueue c = chanMake n (lines ++ rest) cl ->
    conn c = Some cn -> connClosed cn = false -> writes cn = [] ->
    exists c',
      sendLoop maxMessages perSeconds clock b c = Ok false c'
      /\ sendTrace (events c')
         = (sendTrace (events c)
            ++ bucketTrace maxMessages perSeconds clock lines b)%list.
Proof.
  induction clock as [|now clock IH];
    intros lines b c cn n rest cl Hlen Hdone Hq Hc Hcl Hw.
  - exists c. split; [reflexivity|]. simpl. rewrite app_nil_r. reflexivity.
  - destruct lines as [|data lines]; [simpl in Hlen; lia|].
    cbn [sendLoop]. unfold bind at 1, get. rewrite Hdone, Hq.
    cbn [receive app]. unfold bind at 1, modify.
    set (c1 := set_sendQueue (chanMake n (lines ++ rest) cl) c).
    pose proof (sendLine_eq maxMessages perSeconds now data b c1 cn Hc Hcl Hw)
      as Hline.
    cbv zeta in Hline. erewrite bind_Ok by exact Hline.
    cbn [bucketTrace].
    destruct (throttle maxMessages (refill maxMessages perSeconds b now))
      as [tok sleep].
    cbn [fst snd].
    edestruct (IH lines (mkBucket (tok - 1)%float now)
                 (afterWrite (terminated data) None cn (slept sleep c1)) cn
                 n rest cl) as (c' & Hrun & Htrace).
    + simpl in Hlen. lia.
    + unfold afterWrite, flushed. simpl. rewrite withLog_doneChan.
      destruct sleep; exact Hdone.
    + unfold afterWrite, flushed. simpl. rewrite withLog_sendQueue.
      destruct sleep; reflexivity.
    + apply afterWrite_conn.
    + exact Hcl.
    + exact Hw.
    + exists c'. split; [exact Hrun|]. rewrite Htrace.
      rewrite sendTrace_afterWrite, sendTrace_slept.
      rewrite <- !app_assoc. reflexivity.
Qed.

Lemma Sub_diag t : time.Sub t t = 0.
Proof. unfold time.Sub. rewrite Z.sub_diag. reflexivity. Qed.

Lemma refill_same maxMessages perSeconds tok t :
  refill maxMessages perSeconds (mkBucket tok t) t
  = (tok + time.Seconds 0%Z * (maxMessages / perSeconds))%float.
Proof. unfold refill. simpl. rewrite Sub_diag. reflexivity. Qed.

(** one iteration of the bucket with no time elapsed: the clamp and the
    decrement are computed on the float64 values *)
Ltac tick :=
  cbn [bucketTrace]; rewrite refill_same;
  match goal with
  | |- context [throttle ?a ?b] =>
      let v := eval vm_compute in (throttle a b) in
      change (throttle a b) with v
  end;
  cbv beta iota zeta;
  try match goal with
      | |- context [mkBucket (?x - 1)%float _] =>
          let v := eval vm_compute in (x - 1)%float in
          change (x - 1)%float with v
      end.

(** twenty lines at one clock reading from a full bucket of 19: nineteen
    writes, then a sleep for the deficit of an empty bucket, then the
    twentieth write *)
Lemma bucketTrace_burst t lines :
  length lines = 20%nat ->
  bucketTrace 19 30 (replicate 20 t) lines (mkBucket 19 t)
  = (map (fun l => EvWrite (terminated l)) (take 19 lines)
     ++ EvSleep (deficit 0)
        :: map (fun l => EvWrite (terminated l)) (drop 19 lines))%list.
Proof.
  intros Hlen.
  do 20 (destruct lines as [|? lines]; [discriminate Hlen|]).
  destruct lines; [|discriminate Hlen].
  cbn [replicate take drop map app].
  do 20 tick. reflexivity.
Qed.

(** C1: a fresh sender with capacity 19 and window 30 s that finds twenty
    lines queued and reads the same clock value at every iteration writes
    the first nineteen without calling [time.Sleep]; before the twentieth
    write it sleeps for the deficit [1 - tokens] of the bucket, which then
    holds 0 tokens: one second. *)
Theorem burst_of_twenty (t : time.Time) (lines rest : list string)
    (c : Client) (cn : Conn) (n : nat) (cl : bool)
    (Hlen : length lines = 20%nat)
    (Hdone : channel.isClosed (doneChan c) = false)
    (Hqueue : sendQueue c = chanMake n (lines ++ rest) cl)
    (Hconn : conn c = Some cn)
    (Hopen : connClosed cn = false)
    (Hwrites : writes cn = []) :
  exists c',
    startSendLoop 19 30 (t :: replicate 20 t) c = Ok false c'
    /\ sendTrace (events c')
       = (sendTrace (events c)
          ++ map (fun l => EvWrite (terminated l)) (take 19 lines)
          ++ EvSleep (deficit 0)
             :: map (fun l => EvWrite (terminated l)) (drop 19 lines))%list
    /\ length (take 19 lines) = 19%nat
    /\ length (drop 19 lines) = 1%nat
    /\ deficit 0 = time.Second
    /\ PrimFloat.leb (1 - 0) (time.Seconds (deficit 0)) = true.
Proof.
  destruct (sendLoop_trace 19 30 (replicate 20 t) lines (mkBucket 19 t)
              c cn n rest cl) as (c' & Hrun & Htrace);
    try assumption.
  { rewrite length_replicate, Hlen. lia. }
  exists c'. split.
  - unfold startSendLoop, bind, get. rewrite Hconn, Hrun. reflexivity.
  - split; [rewrite Htrace, bucketTrace_burst by exact Hlen; reflexivity|].
    split; [rewrite length_take, Hlen; reflexivity|].
    split; [rewrite length_drop, Hlen; reflexivity|].
    split; reflexivity.
Qed.

(** ** Join, Part and the flag *)

(** [Join("foo")] and [Join("#foo")] do the same *)
Lemma Join_prefix c : Join "foo" c = Join "#foo" c.
Proof. reflexivity. Qed.

Lemma Join_enqueues c n buf :
  connected c = true -> sendQueue c = chanMake n buf false ->
  (length buf < n)%nat ->
  Join "foo" c = Ok tt (set_sendQueue (chanMake n (buf ++ ["JOIN #foo"]) false) c).
Proof. intros Hc Hq Hlen. unfold Join. simpl. apply send_enqueues; assumption. Qed.

(** while the flag is down [Say] enqueues nothing *)
Lemma Say_not_connected channel msg c :
  channel <> "" -> connected c = false -> Say channel msg c = Ok tt c.
Proof.
  intros Hne Hc. destruct (Say_send channel msg c Hne) as (ch' & ->).
  apply send_not_connected. exact Hc.
Qed.

(** a PRIVMSG with a [bits] tag goes to the cheer listeners only *)
Lemma cheer_dispatch msg c ch m rest bits :
  Command msg = "PRIVMSG" -> Params msg = ch :: m :: rest ->
  strings.HasPrefix m actionMarker = false ->
  Tags msg !! "bits" = Some bits ->
  dispatch msg c
  = Ok tt (set_events
             (events c
              ++ map (fun cb => EvCall cb (argsChannelTagsMsg ch (Tags msg) m))
                   (cheerCallbacks c)) c).
Proof.
  intros Hcmd Hp Ha Hb. rewrite dispatch_PRIVMSG by exact Hcmd.
  rewrite Hp. simpl. rewrite Ha, Hb. unfold doCheerCallbacks, bind at 1, get.
  rewrite <- forEach_emit. apply forEach_ext. intros cb c0. rewrite Hp. reflexivity.
Qed.

(** ** The receiver *)

Lemma Disconnect_then_error (e : error) c :
  match (Disconnect ;; ret (Some e)) c with
  | Ok r _ => r <> None
  | Panic _ _ => True
  end.
Proof. unfold bind. destruct (Disconnect c); [discriminate|exact I]. Qed.

(** with more fuel than the read script has entries, the receiver's loop
    ends by returning an error (or by a panic of the dispatcher), never
    for lack of fuel *)
Lemma recvLoop_fuel NewMessage fuel :
  forall c cn,
    conn c = Some cn -> (length (reads cn) < fuel)%nat ->
    match recvLoop NewMessage fuel c with
    | Ok r _ => r <> None
    | Panic _ _ => True
    end.
Proof.
  induction fuel as [|fuel IH]; intros c cn Hc Hlen; [lia|].
  cbn [recvLoop]. unfold bind at 1, readString, bind at 1, get. rewrite Hc.
  unfold nextRead.
  destruct (connClosed cn) eqn:Hcl;
    destruct (reads cn) as [|[line [e|]] rest] eqn:Hr;
    unfold bind at 1, modify, ret;
    try apply Disconnect_then_error.
  all: erewrite bind_Ok by apply log_eq.
  all: set (c1 := withLog _ _ _).
  all: assert (Hc1 : conn c1 = Some (mkConn rest (writes cn) (connClosed cn)))
    by (unfold c1; rewrite withLog_conn; simpl; rewrite Hcl; reflexivity).
  all: pose proof (sameConn_dispatch (NewMessage line) c1) as Hk.
  all: unfold bind, doCallbacks.
  all: destruct (dispatch (NewMessage line) c1) as [[] c2|p c2]; [|exact I].
  all: apply (IH c2 (mkConn rest (writes cn) (connClosed cn)));
    [unfold sameConn in Hk; congruence|simpl in *; lia].
Qed.

Lemma startRecvLoop_returns NewMessage c :
  match startRecvLoop NewMessage c with
  | Ok r _ => r <> None
  | Panic _ _ => True
  end.
Proof.
  unfold startRecvLoop, bind, get. destruct (conn c) as [cn|] eqn:Hc; [|exact I].
  apply (recvLoop_fuel NewMessage _ c cn Hc). lia.
Qed.


(** ** The theorems at concrete clients *)

Lemma burst_of_twenty_witness :
  exists c',
    startSendLoop 19 30 (0 :: replicate 20 0)
      (queued (replicate 20 "PRIVMSG #foo :hi") live) = Ok false c'
    /\ sendTrace (events c')
       = (replicate 19 (EvWrite ("PRIVMSG #foo :hi" +:+ CRLF))
          ++ [EvSleep 1000000000; EvWrite ("PRIVMSG #foo :hi" +:+ CRLF)])%list.
Proof.
  destruct (burst_of_twenty 0 (replicate 20 "PRIVMSG #foo :hi") []
              (queued (replicate 20 "PRIVMSG #foo :hi") live)
              (mkConn [] [] false) sendBufferSize false)
    as (c' & Hrun & Htrace & _); try reflexivity.
  exists c'. split; [exact Hrun|]. rewrite Htrace. reflexivity.
Defined.

Lemma action_dispatch_witness :
  doCallbacks NewMessage actionLine listening
  = Ok tt (set_events
             [EvCall 1%nat (argsChannelTagsMsg "#foo" ∅ (" waves" +:+ SOH))]
             listening).
Proof.
  destruct (action_dispatch NewMessage listening ∅ (mkPrefix "" "" ""))
    as (Hrun & _); [reflexivity|].
  rewrite Hrun. reflexivity.
Defined.

Lemma ping_reply_formatted_twice_witness :
  doCallbacks NewMessage "PING :100%" live
  = Ok tt (queued ["PONG :100%!(NOVERB)"] live).
Proof.
  destruct (ping_reply_formatted_twice NewMessage "PING :100%" "100%" [] live
              sendBufferSize [])
    as (Hrun & _ & Hbad & _);
    [reflexivity|reflexivity|reflexivity|reflexivity
    |unfold sendBufferSize; simpl; lia|].
  rewrite Hrun, Hbad by reflexivity. reflexivity.
Defined.

Lemma cap_request_first_capability_unprefixed_witness :
  exists c',
    authenticate NewMessage "bot" "oauth:x"
      (session (Some welcomed) (dialled (NewClient twitch))) = Ok None c'
    /\ written (events c')
       = ["PASS oauth:x" +:+ CRLF +:+ "NICK bot" +:+ CRLF;
          "CAP REQ :membership twitch.tv/commands twitch.tv/tags" +:+ CRLF].
Proof.
  destruct (cap_request_first_capability_unprefixed NewMessage "bot" "oauth:x"
              (":tmi.twitch.tv 001 bot :Welcome, GLHF!" +:+ CRLF)
              (session (Some welcomed) (dialled (NewClient twitch)))
              welcomed welcomed (mkConn [] [] false) (mkConn [] [] false))
    as ((c' & Hrun & Hwritten) & _); try reflexivity.
  exists c'. split; [exact Hrun|]. rewrite Hwritten. reflexivity.
Defined.

Lemma Disconnect_idempotent_witness :
  Disconnect live
  = Ok tt (set_doneChan (chanMake 0 [] true) (set_connected false live))
  /\ (Disconnect ;; Disconnect) live = Disconnect live.
Proof.
  destruct (Disconnect_idempotent live 0 []) as (Hfirst & _ & _ & _ & Htwice);
    try reflexivity.
  split; [exact Hfirst|apply Htwice].
Defined.

Lemma Connected_lifecycle_witness :
  Connected (NewClient twitch) = Ok false (NewClient twitch)
  /\ Connect NewMessage loginFailed "bot" "oauth:x" live
     = Ok (Some AlreadyConnected) live
  /\ doConnect (Dial (fun _ => inl welcomed) (address (NewClient twitch)))
       (NewClient twitch)
     = Ok (Some welcomed, None) (dialled (NewClient twitch))
  /\ exists c2,
       authenticate NewMessage "bot" "oauth:x"
         (session (Some welcomed) (dialled (NewClient twitch))) = Ok None c2
       /\ Connected c2 = Ok true c2.
Proof.
  destruct (Connected_lifecycle NewMessage) as (Hfresh & Hshake & _ & Hagain).
  split; [exact (Hfresh twitch)|].
  split; [exact (Hagain loginFailed "bot" "oauth:x" live eq_refl)|].
  destruct (Hshake (Dial (fun _ => inl welcomed) (address (NewClient twitch)))
              "bot" "oauth:x" (NewClient twitch) (Some welcomed)
              (set_events (events (NewClient twitch)
                           ++ [EvDial (address (NewClient twitch))])
                 (NewClient twitch))
              eq_refl eq_refl) as (Hdo & Hafter).
  split; [exact Hdo|].
  eexists. split; [vm_compute; reflexivity|].
  refine (proj1 (Hafter _ _)). vm_compute. reflexivity.
Defined.

Lemma unexpected_response_panic_witness :
  exists c3,
    Connect NewMessage (serving ["PRIVMSG #foo" +:+ CRLF]) "bot" "oauth:x" listening
    = Panic IndexOutOfRange c3.
Proof.
  edestruct (unexpected_response_panic NewMessage
               (serving ["PRIVMSG #foo" +:+ CRLF]) "bot" "oauth:x"
               ("PRIVMSG #foo" +:+ CRLF) listening)
    as (n & buf & _ & Hrun);
    [reflexivity|reflexivity|reflexivity|reflexivity|reflexivity|discriminate
    |vm_compute; reflexivity|].
  eexists. exact Hrun.
Defined.


Lemma Say_after_failed_handshake_witness :
  exists e c3,
    Connect NewMessage loginFailed "bot" "oauth:bad" (NewClient twitch)
    = Ok (Some e) c3
    /\ Say "#foo" "hi" c3 = Panic SendOnClosedChannel c3
    /\ Whisper "bob" "hi" c3 = Panic SendOnClosedChannel c3.
Proof.
  edestruct (Say_after_failed_handshake NewMessage loginFailed "bot" "oauth:bad"
               (NewClient twitch))
    as (c3 & Hrun & Hsay & Hwhisper & _);
    [reflexivity|reflexivity|vm_compute; reflexivity|].
  eexists _, c3. split; [exact Hrun|].
  split; [apply Hsay; discriminate|apply Hwhisper].
Defined.

Lemma dispatch_not_total_witness :
  doCallbacks NewMessage "PRIVMSG #foo" listening = Panic IndexOutOfRange listening
  /\ doCallbacks NewMessage "WHISPER bob" listening = Panic IndexOutOfRange listening
  /\ doCallbacks NewMessage "PING" listening = Panic IndexOutOfRange listening
  /\ doCallbacks NewMessage "NOTICE *" (set_noticeCallbacks [5%nat] listening)
     = Ok tt (set_events [EvCall 5%nat (argsMsg "")]
                (set_noticeCallbacks [5%nat] listening)).
Proof.
  split; [|split; [|split]].
  - destruct (dispatch_not_total NewMessage "PRIVMSG #foo" listening) as (H & _).
    apply H; [reflexivity|simpl; lia|reflexivity|discriminate].
  - destruct (dispatch_not_total NewMessage "WHISPER bob" listening)
      as (_ & H & _).
    apply H; [reflexivity|simpl; lia|discriminate].
  - destruct (dispatch_not_total NewMessage "PING" listening) as (_ & _ & H & _).
    apply H; reflexivity.
  - destruct (dispatch_not_total NewMessage "NOTICE *"
                (set_noticeCallbacks [5%nat] listening)) as (_ & _ & _ & H & _).
    rewrite H by reflexivity. reflexivity.
Defined.

(** * Further properties of [client.go] *)

(** ** What the producers put on the outbound queue *)

Lemma Sprintf_JOIN ch : fmt.Sprintf "JOIN %s" [fmt.argString ch] = "JOIN " ++ ch.
Proof. unfold fmt.Sprintf. simpl. rewrite append_empty_r. reflexivity. Qed.

Lemma Sprintf_PART ch : fmt.Sprintf "PART %s" [fmt.argString ch] = "PART " ++ ch.
Proof. unfold fmt.Sprintf. simpl. rewrite append_empty_r. reflexivity. Qed.

Lemma Sprintf_PRIVMSG ch msg :
  fmt.Sprintf "PRIVMSG %s :%s" [fmt.argString ch; fmt.argString msg]
  = "PRIVMSG " ++ ch ++ " :" ++ msg.
Proof. unfold fmt.Sprintf. simpl. rewrite append_empty_r. reflexivity. Qed.

Lemma noPercent_app a b : noPercent (a ++ b) = (noPercent a && noPercent b)%bool.
Proof.
  induction a as [|x a IH]; [reflexivity|].
  change (noPercent (String x (a ++ b))
          = (noPercent (String x a) && noPercent b)%bool).
  simpl. rewrite IH. destruct (Ascii.eqb x "%"); reflexivity.
Qed.

Lemma prefix_hash b s : String.prefix "#" (String b s) = Ascii.eqb b "#".
Proof.
  cbn [String.prefix]. destruct (ascii_dec "#" b) as [<-|Hne].
  - rewrite Ascii.eqb_refl. destruct s; reflexivity.
  - symmetry. apply Ascii.eqb_neq. congruence.
Qed.

Lemma hashed_prefix channel : strings.HasPrefix (hashed channel) "#" = true.
Proof.
  unfold hashed. destruct (strings.HasPrefix channel "#") eqn:H; [exact H|].
  unfold strings.HasPrefix. change ("#" ++ channel) with (String "#" channel).
  rewrite prefix_hash. reflexivity.
Qed.

Lemma hashed_idem channel : hashed (hashed channel) = hashed channel.
Proof. unfold hashed at 1. rewrite hashed_prefix. reflexivity. Qed.

(** for a channel that is not empty, the test [channel[0] != '#'] of [Say]
    and the test [strings.HasPrefix(channel, "#")] of [Join] agree *)
Lemma first_hashed b channel :
  (if Ascii.eqb b hash then String b channel else "#" ++ String b channel)
  = hashed (String b channel).
Proof.
  unfold hashed, strings.HasPrefix, hash. rewrite prefix_hash. reflexivity.
Qed.

Lemma Say_hashed channel msg c :
  channel <> "" ->
  Say channel msg c
  = send (fmt.Sprintf "PRIVMSG %s :%s"
            [fmt.argString (hashed channel); fmt.argString msg]) [] c.
Proof.
  intros Hne. destruct channel as [|b channel]; [congruence|].
  unfold Say. cbn [strings.first String.get]. rewrite first_hashed. reflexivity.
Qed.

(** X1: on a connected client whose queue has room, [Join] and [Part]
    enqueue exactly [JOIN ] and [PART ] followed by the channel, with [#]
    prepended when the channel does not start with it; this holds for every
    channel text, the empty one and one with percent signs included, and a
    channel with and without its [#] give the same call. *)
Theorem Join_Part_enqueue (channel : string) (c : Client) (n : nat)
    (buf : list string)
    (Hconnected : connected c = true)
    (Hqueue : sendQueue c = chanMake n buf false)
    (Hroom : (length buf < n)%nat) :
  Join channel c = Ok tt (enqueued n buf ("JOIN " ++ hashed channel) c)
  /\ Part channel c = Ok tt (enqueued n buf ("PART " ++ hashed channel) c)
  /\ Join (hashed channel) c = Join channel c
  /\ Part (hashed channel) c = Part channel c.
Proof.
  assert (HJ : forall ch, Join ch c
                          = Ok tt (enqueued n buf ("JOIN " ++ hashed ch) c)).
  { intros ch. unfold Join. fold (hashed ch). rewrite <- Sprintf_JOIN.
    apply send_enqueues; assumption. }
  assert (HP : forall ch, Part ch c
                          = Ok tt (enqueued n buf ("PART " ++ hashed ch) c)).
  { intros ch. unfold Part. fold (hashed ch). rewrite <- Sprintf_PART.
    apply send_enqueues; assumption. }
  split; [apply HJ|]. split; [apply HP|].
  split; [rewrite !HJ|rewrite !HP]; rewrite hashed_idem; reflexivity.
Qed.

(** X2: on a connected client whose queue has room, [Say] with a channel
    that is not empty enqueues one line: [PRIVMSG <channel> :<msg>], with
    [#] prepended to the channel when missing, after a second pass through
    [fmt.Sprintf] without operands.  When neither the channel nor the message
    holds a percent sign the line is that text exactly, and [Whisper]
    enqueues [PRIVMSG #jtv :/w <user> <msg>]. *)
Theorem Say_enqueues (channel msg : string) (c : Client) (n : nat)
    (buf : list string)
    (Hchannel : channel <> "")
    (Hconnected : connected c = true)
    (Hqueue : sendQueue c = chanMake n buf false)
    (Hroom : (length buf < n)%nat) :
  let text := "PRIVMSG " ++ hashed channel ++ " :" ++ msg in
  Say channel msg c = Ok tt (enqueued n buf (fmt.Sprintf text []) c)
  /\ (noPercent channel = true -> noPercent msg = true ->
      Say channel msg c = Ok tt (enqueued n buf text c))
  /\ (forall user,
        noPercent user = true -> noPercent msg = true ->
        Whisper user msg c
        = Ok tt (enqueued n buf ("PRIVMSG #jtv :/w " ++ user ++ " " ++ msg) c)).
Proof.
  assert (Hsay : forall ch m, ch <> "" ->
            Say ch m c
            = Ok tt (enqueued n buf
                       (fmt.Sprintf ("PRIVMSG " ++ hashed ch ++ " :" ++ m) []) c)).
  { intros ch m Hne. rewrite Say_hashed by exact Hne. rewrite Sprintf_PRIVMSG.
    apply send_enqueues; assumption. }
  assert (Hlit : forall ch m, ch <> "" ->
            noPercent (hashed ch) = true -> noPercent m = true ->
            Say ch m c
            = Ok tt (enqueued n buf ("PRIVMSG " ++ hashed ch ++ " :" ++ m) c)).
  { intros ch m Hne Hch Hm. rewrite Hsay by exact Hne. unfold fmt.Sprintf.
    rewrite doPrintf_literal; [reflexivity|].
    rewrite !noPercent_app, Hch, Hm. reflexivity. }
  intros text. split; [apply Hsay; exact Hchannel|]. split.
  - intros Hch Hm. apply Hlit; [exact Hchannel| |exact Hm].
    unfold hashed. destruct (strings.HasPrefix channel "#"); [exact Hch|].
    rewrite noPercent_app, Hch. reflexivity.
  - intros user Hu Hm. unfold Whisper.
    rewrite Hlit; [reflexivity|discriminate|reflexivity|].
    rewrite !noPercent_app, Hu, Hm. reflexivity.
Qed.

(** X3: while the flag is down nothing is enqueued: [Join], [Part],
    [Whisper], [Say] with a channel that is not empty, and the reply to a
    PING leave the client as it is. *)
Theorem nothing_sent_when_disconnected (c : Client)
    (Hdown : connected c = false) :
  (forall channel, Join channel c = Ok tt c /\ Part channel c = Ok tt c)
  /\ (forall channel msg, channel <> "" -> Say channel msg c = Ok tt c)
  /\ (forall user msg, Whisper user msg c = Ok tt c)
  /\ (forall msg p rest,
        Command msg = "PING" -> Params msg = p :: rest ->
        dispatch msg c = Ok tt c).
Proof.
  split; [|split; [|split]].
  - intros channel. split; apply send_not_connected; exact Hdown.
  - intros channel msg Hne. apply Say_not_connected; assumption.
  - intros user msg. apply Say_not_connected; [discriminate|exact Hdown].
  - intros msg p rest Hcmd Hp. rewrite dispatch_PING by exact Hcmd. rewrite Hp.
    erewrite bind_Ok by (apply index_Some; reflexivity).
    apply send_not_connected. exact Hdown.
Qed.

(** ** The capacity of the outbound queue *)

#[local] Instance staysBounded_preorder : PreOrder staysBounded.
Proof. split; unfold staysBounded; [intros c|intros c1 c2 c3]; auto. Qed.

Lemma keeps_after (R : relation Client) {A} (m : M A) c :
  keeps R m -> R c (after m c).
Proof. intros H. specialize (H c). unfold after. destruct (m c); exact H. Qed.

Lemma bounded_emit e : keeps staysBounded (emit e).
Proof. intros c H. exact H. Qed.

Lemma bounded_log format v : keeps staysBounded (log format v).
Proof.
  intros c. rewrite log_eq. unfold staysBounded, bounded.
  rewrite withLog_sendQueue. auto.
Qed.

Lemma bounded_send format args : keeps staysBounded (send format args).
Proof.
  intros c. unfold send, Connected, bind, get, ret.
  destruct (connected c); simpl; [|intros H; exact H].
  destruct (sendQueue c) as [|n buf [|]] eqn:Hq; simpl.
  - apply (bounded_log _ _ c).
  - intros H. exact H.
  - destruct (length buf <? n)%nat eqn:Hlen; simpl.
    + unfold modify. intros _. unfold bounded. simpl.
      apply Nat.ltb_lt in Hlen. rewrite length_app. simpl. lia.
    + apply (bounded_log _ _ c).
Qed.

#[local] Hint Resolve bounded_send bounded_emit : frame.

Lemma bounded_Say channel msg : keeps staysBounded (Say channel msg).
Proof. unfold Say. frame. Qed.

Lemma send_full format args c n buf :
  connected c = true -> sendQueue c = chanMake n buf false ->
  (n <= length buf)%nat ->
  send format args c
  = Ok tt (withLog "Send queue full; discarding message: %s"
             [fmt.argString (fmt.Sprintf format args)] c).
Proof.
  intros Hc Hq Hlen. unfold send, Connected, bind, get, ret. rewrite Hc. simpl.
  rewrite Hq. simpl. apply Nat.ltb_ge in Hlen. rewrite Hlen. simpl.
  apply log_eq.
Qed.

(** X4: no producer makes the outbound queue hold more than its capacity:
    from a client whose queue is within bounds, [Say], [Whisper], [Join],
    [Part] and the dispatcher lead to one whose queue is within bounds,
    whether they return or panic; the queue of a fresh client and the queue
    that [doPostConnect] makes are within bounds; and on a full queue [send]
    returns with the queue as it was: the message is dropped. *)
Theorem queue_never_overflows (c : Client) (Hbounded : bounded c) :
  (forall channel msg, bounded (after (Say channel msg) c))
  /\ (forall user msg, bounded (after (Whisper user msg) c))
  /\ (forall channel, bounded (after (Join channel) c)
                      /\ bounded (after (Part channel) c))
  /\ (forall msg, bounded (after (dispatch msg) c))
  /\ (forall o cn c0, bounded (NewClient o) /\ bounded (session cn c0))
  /\ (forall format args n buf,
        connected c = true -> sendQueue c = chanMake n buf false ->
        (n <= length buf)%nat ->
        exists c', send format args c = Ok tt c' /\ sendQueue c' = sendQueue c).
Proof.
  split; [|split; [|split; [|split; [|split]]]].
  - intros. apply (keeps_after staysBounded); [apply bounded_Say|exact Hbounded].
  - intros. apply (keeps_after staysBounded); [apply bounded_Say|exact Hbounded].
  - intros. split; (apply (keeps_after staysBounded); [apply bounded_send|exact Hbounded]).
  - intros. apply (keeps_after staysBounded); [|exact Hbounded].
    apply keeps_dispatch; [typeclasses eauto|apply bounded_emit|apply bounded_send].
  - intros. split; [exact I|]. unfold bounded, session, sendBufferSize. simpl. lia.
  - intros format args n buf Hc Hq Hlen. eexists. split.
    + apply (send_full _ _ c n buf); assumption.
    + apply withLog_sendQueue.
Qed.

(** ** What the dispatcher never does *)

#[local] Instance sameTraffic_preorder : PreOrder sameTraffic.
Proof. split; unfold sameTraffic; [intros c|intros c1 c2 c3]; congruence. Qed.

#[local] Instance sameRegistry_preorder : PreOrder sameRegistry.
Proof. split; unfold sameRegistry; [intros c|intros c1 c2 c3]; congruence. Qed.

Lemma traffic_log format v : keeps sameTraffic (log format v).
Proof. intros c. rewrite log_eq. apply sendTrace_withLog. Qed.

Lemma traffic_call cb a : keeps sameTraffic (emit (EvCall cb a)).
Proof.
  intros c. unfold emit, modify, sameTraffic. simpl.
  rewrite sendTrace_app. simpl. apply app_nil_r.
Qed.

Lemma traffic_send format args : keeps sameTraffic (send format args).
Proof.
  intros c. unfold send, Connected, bind, get, ret.
  destruct (connected c); simpl; [|reflexivity].
  destruct (sendQueue c) as [|n buf [|]]; simpl; try reflexivity.
  - apply (traffic_log _ _ c).
  - destruct (length buf <? n)%nat; simpl; [reflexivity|].
    apply (traffic_log _ _ c).
Qed.

#[local] Hint Resolve traffic_call traffic_send : frame.

Lemma traffic_dispatch msg : keeps sameTraffic (dispatch msg).
Proof.
  unfold dispatch, doActionCallbacks, doCheerCallbacks, doChatCallbacks,
    doJoinCallbacks, doPartCallbacks, doNoticeCallbacks, doUserStateCallbacks,
    doRoomStateCallbacks, doResubCallbacks, doSubscriptionCallbacks,
    doSubGiftCallbacks, doWhisperCallbacks, body.
  frame.
Qed.

Lemma withLog_registry format v c : registry (withLog format v c) = registry c.
Proof. unfold withLog. destruct (Debug (options c)); reflexivity. Qed.

Lemma registry_emit e : keeps sameRegistry (emit e).
Proof. intros c. reflexivity. Qed.

Lemma registry_send format args : keeps sameRegistry (send format args).
Proof.
  intros c. unfold send, Connected, bind, get, ret.
  destruct (connected c); simpl; [|reflexivity].
  destruct (sendQueue c) as [|n buf [|]]; simpl; try reflexivity.
  - rewrite log_eq. apply withLog_registry.
  - destruct (length buf <? n)%nat; simpl; [reflexivity|].
    rewrite log_eq. apply withLog_registry.
Qed.

(** X5: whatever the message, and whether it returns or panics, the
    dispatcher writes nothing to the transport and does not sleep, leaves
    the transport, the flag, the shutdown channel, the options and the
    twelve listener lists as they are, and does not close the outbound
    queue: it only invokes listeners, logs and enqueues. *)
Theorem dispatch_touches_nothing_else (msg : Message) (c : Client) :
  let c' := after (dispatch msg) c in
  sendTrace (events c') = sendTrace (events c)
  /\ written (events c') = written (events c)
  /\ conn c' = conn c
  /\ connected c' = connected c
  /\ doneChan c' = doneChan c
  /\ options c' = options c
  /\ registry c' = registry c
  /\ (queueOpen c -> queueOpen c').
Proof.
  intros c'.
  pose proof (keeps_after sameTraffic (dispatch msg) c (traffic_dispatch msg)) as Ht.
  pose proof (keeps_after stable (dispatch msg) c (stable_dispatch msg))
    as (Hc & Hd & Ho & Hq).
  pose proof (keeps_after sameConn (dispatch msg) c (sameConn_dispatch msg)) as Hn.
  assert (Hr : sameRegistry c c').
  { apply keeps_after, keeps_dispatch;
      [typeclasses eauto|apply registry_emit|apply registry_send]. }
  fold c' in Ht, Hc, Hd, Ho, Hq, Hn.
  split; [exact Ht|]. split.
  - assert (Hw : forall ev, written ev = written (sendTrace ev)).
    { induction ev as [|e ev IH]; [reflexivity|].
      destruct e; simpl; rewrite ?IH; reflexivity. }
    rewrite (Hw (events c')), (Hw (events c)). unfold sameTraffic in Ht.
    rewrite Ht. reflexivity.
  - repeat split; assumption.
Qed.

(** ** Where a message goes *)

Lemma forEach_calls (l : list listener) (f : listener -> M unit) a c :
  (forall cb c0, f cb c0 = emit (EvCall cb a) c0) ->
  forEach l f c = Ok tt (withEvents (heard l a) c).
Proof.
  intros H. unfold withEvents, heard. rewrite <- forEach_emit.
  apply forEach_ext. exact H.
Qed.

Lemma doChatCallbacks_eq msg c ch m rest :
  Params msg = ch :: m :: rest ->
  doChatCallbacks msg c
  = Ok tt (withEvents (heard (chatCallbacks c)
                         (argsChannelTagsMsg ch (Tags msg) m)) c).
Proof.
  intros Hp. unfold doChatCallbacks, bind at 1, get.
  apply forEach_calls. intros cb c0. rewrite Hp. reflexivity.
Qed.

Lemma doCheerCallbacks_eq msg c ch m rest :
  Params msg = ch :: m :: rest ->
  doCheerCallbacks msg c
  = Ok tt (withEvents (heard (cheerCallbacks c)
                         (argsChannelTagsMsg ch (Tags msg) m)) c).
Proof.
  intros Hp. unfold doCheerCallbacks, bind at 1, get.
  apply forEach_calls. intros cb c0. rewrite Hp. reflexivity.
Qed.

Lemma substring_all s : String.substring 0 (String.length s) s = s.
Proof. induction s as [|a s IH]; simpl; [|rewrite IH]; reflexivity. Qed.

(** a string that has the prefix [p] is [p] followed by its bytes from
    [len(p)] on *)
Lemma prefix_split p : forall m,
  String.prefix p m = true ->
  m = p ++ String.substring (String.length p)
             (String.length m - String.length p) m.
Proof.
  induction p as [|a p IH]; intros m H.
  - simpl. rewrite Nat.sub_0_r, substring_all. reflexivity.
  - destruct m as [|b m]; [discriminate H|].
    cbn [String.prefix] in H. destruct (ascii_dec a b) as [->|]; [|discriminate H].
    change (String b m
            = String b (p ++ String.substring (String.length p)
                              (String.length m - String.length p) m)).
    rewrite <- (IH m H). reflexivity.
Qed.

Lemma prefix_length p : forall m,
  String.prefix p m = true -> (String.length p <= String.length m)%nat.
Proof.
  induction p as [|a p IH]; intros m H; [simpl; lia|].
  destruct m as [|b m]; [discriminate H|].
  cbn [String.prefix] in H. destruct (ascii_dec a b); [|discriminate H].
  simpl. apply le_n_S, IH, H.
Qed.

(** in the action path the slice [m[7:]] is within bounds, and the body is
    the marker followed by it *)
Lemma action_slice m :
  strings.HasPrefix m actionMarker = true ->
  exists text,
    strings.sliceFrom 7 m = Some text /\ m = actionMarker ++ text.
Proof.
  intros H. unfold strings.HasPrefix in H.
  pose proof (prefix_length _ _ H) as Hlen.
  pose proof (prefix_split _ _ H) as Hm.
  change (String.length actionMarker) with 7%nat in Hlen, Hm.
  exists (String.substring 7 (String.length m - 7) m). split; [|exact Hm].
  unfold strings.sliceFrom. apply Nat.leb_le in Hlen. rewrite Hlen. reflexivity.
Qed.

Lemma heard_app l1 l2 a : heard (l1 ++ l2) a = (heard l1 a ++ heard l2 a)%list.
Proof. apply map_app. Qed.

(** X6: a PRIVMSG with a channel and a body goes to one listener list:
    to the action listeners when the body starts with the marker
    [\u0001ACTION], whatever its tags, with the bytes after the marker as
    text (the slice never panics); otherwise to the cheer listeners when a
    [bits] tag is present; otherwise to the chat listeners.  The listeners
    of the list are invoked in order and nothing else changes. *)
Theorem privmsg_routing (msg : Message) (c : Client) (ch m : string)
    (rest : list string)
    (Hcmd : Command msg = "PRIVMSG")
    (Hparams : Params msg = ch :: m :: rest) :
  (strings.HasPrefix m actionMarker = true ->
   exists text,
     m = actionMarker ++ text
     /\ dispatch msg c
        = Ok tt (withEvents (heard (actionCallbacks c)
                               (argsChannelTagsMsg ch (Tags msg) text)) c))
  /\ (strings.HasPrefix m actionMarker = false ->
      forall bits, Tags msg !! "bits" = Some bits ->
      dispatch msg c
      = Ok tt (withEvents (heard (cheerCallbacks c)
                             (argsChannelTagsMsg ch (Tags msg) m)) c))
  /\ (strings.HasPrefix m actionMarker = false ->
      Tags msg !! "bits" = None ->
      dispatch msg c
      = Ok tt (withEvents (heard (chatCallbacks c)
                             (argsChannelTagsMsg ch (Tags msg) m)) c)).
Proof.
  rewrite dispatch_PRIVMSG by exact Hcmd. rewrite Hparams. simpl.
  split; [|split].
  - intros Ha. rewrite Ha. destruct (action_slice m Ha) as (text & Hs & Hm).
    exists text. split; [exact Hm|].
    apply (doActionCallbacks_eq msg c ch m rest text); assumption.
  - intros Ha bits Hb. rewrite Ha, Hb. apply (doCheerCallbacks_eq _ _ _ _ rest Hparams).
  - intros Ha Hb. rewrite Ha, Hb. apply (doChatCallbacks_eq _ _ _ _ rest Hparams).
Qed.

(** X7: a listener registered with [OnChat] is invoked after the chat
    listeners registered before it, with the same operands, and a listener
    registered for another kind ([OnAction], [OnCheer]) does not hear a chat
    message. *)
Theorem listeners_in_registration_order (msg : Message) (c : Client)
    (cb : listener) (ch m : string) (rest : list string)
    (Hcmd : Command msg = "PRIVMSG")
    (Hparams : Params msg = ch :: m :: rest)
    (Hplain : strings.HasPrefix m actionMarker = false)
    (Hnobits : Tags msg !! "bits" = None) :
  let a := argsChannelTagsMsg ch (Tags msg) m in
  (OnChat cb ;; dispatch msg) c
  = Ok tt (withEvents (heard (chatCallbacks c) a ++ [EvCall cb a])
             (set_chatCallbacks (chatCallbacks c ++ [cb]) c))
  /\ (OnAction cb ;; dispatch msg) c
     = Ok tt (withEvents (heard (chatCallbacks c) a)
                (set_actionCallbacks (actionCallbacks c ++ [cb]) c))
  /\ (OnCheer cb ;; dispatch msg) c
     = Ok tt (withEvents (heard (chatCallbacks c) a)
                (set_cheerCallbacks (cheerCallbacks c ++ [cb]) c)).
Proof.
  intros a.
  assert (Hchat : forall c0,
            dispatch msg c0 = Ok tt (withEvents (heard (chatCallbacks c0) a) c0)).
  { intros c0. rewrite dispatch_PRIVMSG by exact Hcmd. rewrite Hparams. simpl.
    rewrite Hplain, Hnobits. apply (doChatCallbacks_eq _ _ _ _ rest Hparams). }
  split; [|split]; unfold bind, OnChat, OnAction, OnCheer, modify;
    rewrite Hchat; [|reflexivity|reflexivity].
  simpl. rewrite heard_app. reflexivity.
Qed.

Lemma eqb_not_in (s x : string) (l : list string) :
  ~ In s (x :: l) -> String.eqb s x = false /\ ~ In s l.
Proof.
  intros H. split.
  - apply String.eqb_neq. intros ->. apply H. left. reflexivity.
  - intros Hin. apply H. right. exact Hin.
Qed.

(** X8: a message whose command is none of the nine that [doCallbacks]
    knows, and a USERNOTICE whose [msg-id] tag is absent or is none of
    [resub], [sub] and [subgift], are ignored: the client is left as it is,
    whatever the parameters. *)
Theorem dispatch_ignores (msg : Message) (c : Client) :
  (~ In (Command msg) commands -> dispatch msg c = Ok tt c)
  /\ (Command msg = "USERNOTICE" ->
      ~ In (default "" (Tags msg !! "msg-id")) ["resub"; "sub"; "subgift"] ->
      dispatch msg c = Ok tt c).
Proof.
  split.
  - intros H. unfold commands in H. unfold dispatch.
    repeat (apply eqb_not_in in H; destruct H as [-> H]). reflexivity.
  - intros Hcmd H. rewrite dispatch_USERNOTICE by exact Hcmd. cbv zeta.
    repeat (apply eqb_not_in in H; destruct H as [-> H]). reflexivity.
Qed.

Lemma dispatch_JOIN msg c :
  Command msg = "JOIN" -> dispatch msg c = doJoinCallbacks msg c.
Proof. intros H. unfold dispatch. rewrite H. reflexivity. Qed.

Lemma dispatch_PART msg c :
  Command msg = "PART" -> dispatch msg c = doPartCallbacks msg c.
Proof. intros H. unfold dispatch. rewrite H. reflexivity. Qed.

Lemma dispatch_USERSTATE msg c :
  Command msg = "USERSTATE" -> dispatch msg c = doUserStateCallbacks msg c.
Proof. intros H. unfold dispatch. rewrite H. reflexivity. Qed.

Lemma dispatch_ROOMSTATE msg c :
  Command msg = "ROOMSTATE" -> dispatch msg c = doRoomStateCallbacks msg c.
Proof. intros H. unfold dispatch. rewrite H. reflexivity. Qed.

(** X9: with a channel as first parameter, a JOIN and a PART go to the join
    and the part listeners with the channel and the nickname of the prefix,
    a USERSTATE and a ROOMSTATE to their listeners with the channel and the
    tags, and a WHISPER with a second parameter to the whisper listeners
    with the nickname, the tags and that parameter; nothing else changes. *)
Theorem single_list_routing (msg : Message) (c : Client) (ch : string)
    (rest : list string)
    (Hparams : Params msg = ch :: rest) :
  let nick := Nick (Prefix_ msg) in
  let to (l : list listener) (a : callArgs) :=
    dispatch msg c = Ok tt (withEvents (heard l a) c) in
  (Command msg = "JOIN" -> to (joinCallbacks c) (argsChannelUser ch nick))
  /\ (Command msg = "PART" -> to (partCallbacks c) (argsChannelUser ch nick))
  /\ (Command msg = "USERSTATE" ->
      to (userStateCallbacks c) (argsChannelTags ch (Tags msg)))
  /\ (Command msg = "ROOMSTATE" ->
      to (roomStateCallbacks c) (argsChannelTags ch (Tags msg)))
  /\ (Command msg = "WHISPER" ->
      forall m rest', rest = m :: rest' ->
      to (whisperCallbacks c) (argsChannelTagsMsg nick (Tags msg) m)).
Proof.
  intros nick to. unfold to.
  split; [|split; [|split; [|split]]]; intros Hcmd.
  - rewrite dispatch_JOIN by exact Hcmd. unfold doJoinCallbacks, bind at 1, get.
    apply forEach_calls. intros cb c0. rewrite Hparams. reflexivity.
  - rewrite dispatch_PART by exact Hcmd. unfold doPartCallbacks, bind at 1, get.
    apply forEach_calls. intros cb c0. rewrite Hparams. reflexivity.
  - rewrite dispatch_USERSTATE by exact Hcmd.
    unfold doUserStateCallbacks, bind at 1, get.
    apply forEach_calls. intros cb c0. rewrite Hparams. reflexivity.
  - rewrite dispatch_ROOMSTATE by exact Hcmd.
    unfold doRoomStateCallbacks, bind at 1, get.
    apply forEach_calls. intros cb c0. rewrite Hparams. reflexivity.
  - intros m rest' ->. rewrite dispatch_WHISPER by exact Hcmd.
    unfold doWhisperCallbacks, bind at 1, get.
    apply forEach_calls. intros cb c0. rewrite Hparams. reflexivity.
Qed.

(** X10: on a client without listeners the dispatcher returns for every
    message that is not a PING, whatever its parameters; for a PING it
    returns when there is a parameter and the client is not connected or
    its outbound queue is not closed. *)
Theorem dispatch_without_listeners (msg : Message) (c : Client)
    (Hnone : registry c = replicate 12 [])
    (Hping : Command msg = "PING" ->
             Params msg <> []
             /\ (connected c = false
                 \/ forall n buf, sendQueue c <> chanMake n buf true)) :
  exists c', dispatch msg c = Ok tt c'.
Proof.
  unfold registry in Hnone. simpl in Hnone.
  injection Hnone as Ha Hchat Hresub Hnotice Hus Hrs Hgift Hsub Hcheer Hj Hp Hw.
  unfold dispatch.
  destruct (String.eqb (Command msg) "PRIVMSG").
  { erewrite bind_Ok by apply body_eq.
    destruct (strings.HasPrefix (default "" (Params msg !! 1%nat)) actionMarker)
      eqn:Hact.
    - destruct (Params msg !! 1%nat) as [m|] eqn:Hm;
        [|discriminate Hact].
      unfold doActionCallbacks, bind at 1, get.
      erewrite bind_Ok by (apply index_Some; exact Hm).
      rewrite Ha. eexists. reflexivity.
    - destruct (Tags msg !! "bits").
      + unfold doCheerCallbacks, bind, get. rewrite Hcheer. eexists. reflexivity.
      + unfold doChatCallbacks, bind, get. rewrite Hchat. eexists. reflexivity. }
  destruct (String.eqb (Command msg) "JOIN").
  { unfold doJoinCallbacks, bind, get. rewrite Hj. eexists. reflexivity. }
  destruct (String.eqb (Command msg) "PART").
  { unfold doPartCallbacks, bind, get. rewrite Hp. eexists. reflexivity. }
  destruct (String.eqb (Command msg) "NOTICE").
  { unfold doNoticeCallbacks, bind, get. rewrite Hnotice. eexists. reflexivity. }
  destruct (String.eqb (Command msg) "USERSTATE").
  { unfold doUserStateCallbacks, bind, get. rewrite Hus. eexists. reflexivity. }
  destruct (String.eqb (Command msg) "ROOMSTATE").
  { unfold doRoomStateCallbacks, bind, get. rewrite Hrs. eexists. reflexivity. }
  destruct (String.eqb (Command msg) "USERNOTICE").
  { cbv zeta. destruct (String.eqb _ "resub").
    { unfold doResubCallbacks, bind, get. rewrite Hresub. eexists. reflexivity. }
    destruct (String.eqb _ "sub").
    { unfold doSubscriptionCallbacks, bind, get. rewrite Hsub. eexists. reflexivity. }
    destruct (String.eqb _ "subgift").
    { unfold doSubGiftCallbacks, bind, get. rewrite Hgift. eexists. reflexivity. }
    eexists. reflexivity. }
  destruct (String.eqb (Command msg) "WHISPER").
  { unfold doWhisperCallbacks, bind, get. rewrite Hw. eexists. reflexivity. }
  destruct (String.eqb (Command msg) "PING") eqn:Hcmd; [|eexists; reflexivity].
  apply String.eqb_eq in Hcmd. destruct (Hping Hcmd) as (Hparams & Hsend).
  destruct (Params msg) as [|p rest]; [congruence|].
  erewrite bind_Ok by (apply index_Some; reflexivity).
  apply send_returns. exact Hsend.
Qed.

(** ** The sender: delimiters, order, failure *)

Lemma length_append a b :
  String.length (a ++ b) = (String.length a + String.length b)%nat.
Proof.
  induction a as [|x a IH]; [reflexivity|].
  change (S (String.length (a ++ b)) = S (String.length a + String.length b)).
  rewrite IH. reflexivity.
Qed.

Lemma substring_skip a b n :
  String.substring (String.length a) n (a ++ b) = String.substring 0 n b.
Proof. induction a as [|x a IH]; [reflexivity|]. exact IH. Qed.

Lemma HasSuffix_app d suf : strings.HasSuffix (d ++ suf) suf = true.
Proof.
  unfold strings.HasSuffix. rewrite length_append.
  replace (String.length d + String.length suf - String.length suf)%nat
    with (String.length d) by lia.
  rewrite substring_skip, substring_all, String.eqb_refl.
  assert (H : (String.length suf <=? String.length d + String.length suf)%nat = true)
    by (apply Nat.leb_le; lia).
  rewrite H. reflexivity.
Qed.

(** X11: the line the sender writes always ends with the delimiter CRLF:
    a line that ends with it is written as it is, any other line gets it
    appended, and terminating twice is terminating once. *)
Theorem line_delimiter (data : string) :
  strings.HasSuffix (terminated data) CRLF = true
  /\ terminated (terminated data) = terminated data
  /\ (strings.HasSuffix data CRLF = true -> terminated data = data)
  /\ (strings.HasSuffix data CRLF = false -> terminated data = data ++ CRLF).
Proof.
  assert (H : strings.HasSuffix (terminated data) CRLF = true).
  { unfold terminated. destruct (strings.HasSuffix data CRLF) eqn:Hs;
      [exact Hs|apply HasSuffix_app]. }
  split; [exact H|]. split; [unfold terminated at 1; rewrite H; reflexivity|].
  split; intros Hs; unfold terminated; rewrite Hs; reflexivity.
Qed.

Lemma written_slept sleep c : written (events (slept sleep c)) = written (events c).
Proof.
  destruct sleep as [d|]; [|reflexivity]. simpl. rewrite written_app. simpl.
  apply app_nil_r.
Qed.

Lemma sendLoop_fifo maxMessages perSeconds clock :
  forall lines b c cn n rest cl,
    (length clock <= length lines)%nat ->
    channel.isClosed (doneChan c) = false ->
    sendQueue c = chanMake n (lines ++ rest) cl ->
    conn c = Some cn -> connClosed cn = false -> writes cn = [] ->
    exists c',
      sendLoop maxMessages perSeconds clock b c = Ok false c'
      /\ written (events c')
         = (written (events c) ++ map terminated (take (length clock) lines))%list
      /\ sendQueue c' = chanMake n (drop (length clock) lines ++ rest) cl.
Proof.
  induction clock as [|now clock IH];
    intros lines b c cn n rest cl Hlen Hdone Hq Hc Hcl Hw.
  - exists c. split; [reflexivity|]. simpl. rewrite app_nil_r.
    split; [reflexivity|exact Hq].
  - destruct lines as [|data lines]; [simpl in Hlen; lia|].
    cbn [sendLoop]. unfold bind at 1, get. rewrite Hdone, Hq.
    cbn [receive app]. unfold bind at 1, modify.
    set (c1 := set_sendQueue (chanMake n (lines ++ rest) cl) c).
    pose proof (sendLine_eq maxMessages perSeconds now data b c1 cn Hc Hcl Hw)
      as Hline.
    cbv zeta in Hline. erewrite bind_Ok by exact Hline.
    destruct (throttle maxMessages (refill maxMessages perSeconds b now))
      as [tok sleep].
    cbn [fst snd].
    edestruct (IH lines (mkBucket (tok - 1)%float now)
                 (afterWrite (terminated data) None cn (slept sleep c1)) cn
                 n rest cl) as (c' & Hrun & Hwritten & Hqueue).
    + simpl in Hlen. lia.
    + unfold afterWrite, flushed. simpl. rewrite withLog_doneChan.
      destruct sleep; exact Hdone.
    + unfold afterWrite, flushed. simpl. rewrite withLog_sendQueue.
      destruct sleep; reflexivity.
    + apply afterWrite_conn.
    + exact Hcl.
    + exact Hw.
    + exists c'. split; [exact Hrun|]. split; [|exact Hqueue].
      rewrite Hwritten, written_afterWrite, written_slept.
      rewrite <- app_assoc. reflexivity.
Qed.

(** X12: whatever the clock readings and the state of the bucket, the
    sender writes the queued lines in queue order, one per iteration, each
    with its delimiter, and leaves the lines it did not reach in the queue,
    in order. *)
Theorem sender_is_fifo (maxMessages perSeconds : float) (t0 : time.Time)
    (clock : list time.Time) (lines rest : list string) (c : Client)
    (cn : Conn) (n : nat) (cl : bool)
    (Hlen : (length clock <= length lines)%nat)
    (Hdone : channel.isClosed (doneChan c) = false)
    (Hqueue : sendQueue c = chanMake n (lines ++ rest) cl)
    (Hconn : conn c = Some cn)
    (Hopen : connClosed cn = false)
    (Hwrites : writes cn = []) :
  exists c',
    startSendLoop maxMessages perSeconds (t0 :: clock) c = Ok false c'
    /\ written (events c')
       = (written (events c) ++ map terminated (take (length clock) lines))%list
    /\ sendQueue c' = chanMake n (drop (length clock) lines ++ rest) cl.
Proof.
  destruct (sendLoop_fifo maxMessages perSeconds clock lines
              (mkBucket maxMessages t0) c cn n rest cl)
    as (c' & Hrun & Hrest); try assumption.
  exists c'. split; [|exact Hrest].
  unfold startSendLoop, bind, get. rewrite Hconn, Hrun. reflexivity.
Qed.

Lemma withLog_connected format v c : connected (withLog format v c) = connected c.
Proof. unfold withLog. destruct (Debug (options c)); reflexivity. Qed.

(** a line whose write fails: the sender disconnects and its loop returns *)
Lemma sendLine_fails maxMessages perSeconds now data b c cn e cn' m dbuf :
  conn c = Some cn -> connClosed cn = false ->
  nextFlush cn = (Some e, cn') ->
  connected c = true -> doneChan c = chanMake m dbuf false ->
  exists c',
    sendLine maxMessages perSeconds now data b c = Ok None c'
    /\ connected c' = false
    /\ doneChan c' = chanMake m dbuf true
    /\ conn c' = Some cn'
    /\ sendQueue c' = sendQueue c
    /\ written (events c') = written (events c).
Proof.
  intros Hc Hcl Hf Hco Hd. unfold sendLine.
  destruct (throttle maxMessages (refill maxMessages perSeconds b now))
    as [tok sleep].
  assert (Hs : (if sleep is Some d then emit (EvSleep d) else ret tt) c
               = Ok tt (slept sleep c)) by (destruct sleep; reflexivity).
  erewrite bind_Ok by exact Hs.
  erewrite bind_Ok.
  2:{ eapply write_eq; [|exact Hcl|exact Hf]. destruct sleep; exact Hc. }
  cbv beta iota. erewrite bind_Ok by apply log_eq.
  set (c3 := withLog _ _ _).
  assert (Hco3 : connected c3 = true).
  { unfold c3. rewrite withLog_connected. unfold afterWrite, flushed. simpl.
    rewrite withLog_connected. destruct sleep; exact Hco. }
  assert (Hd3 : doneChan c3 = chanMake m dbuf false).
  { unfold c3. rewrite withLog_doneChan. unfold afterWrite, flushed. simpl.
    rewrite withLog_doneChan. destruct sleep; exact Hd. }
  erewrite bind_Ok by (apply (Disconnect_open c3 m dbuf); assumption).
  eexists. split; [reflexivity|]. simpl.
  split; [reflexivity|]. split; [reflexivity|].
  unfold c3. rewrite withLog_conn, withLog_sendQueue, written_withLog.
  unfold afterWrite, flushed. simpl.
  rewrite withLog_sendQueue, written_withLog, written_slept.
  split; [reflexivity|]. split; [destruct sleep; reflexivity|reflexivity].
Qed.

(** X13: when the write of a queued line fails, the sender running on a
    connected client clears the flag, closes the shutdown channel, returns
    and closes the transport; the line is taken off the queue and nothing
    is written. *)
Theorem sender_write_failure (maxMessages perSeconds : float)
    (t0 now : time.Time) (clock : list time.Time) (data : string)
    (rest : list string) (c : Client) (cn cn' : Conn) (e : error)
    (n m : nat) (cl : bool)
    (Hconnected : connected c = true)
    (Hdone : doneChan c = chanMake m [] false)
    (Hqueue : sendQueue c = chanMake n (data :: rest) cl)
    (Hconn : conn c = Some cn)
    (Hopen : connClosed cn = false)
    (Hfail : nextFlush cn = (Some e, cn')) :
  exists c',
    startSendLoop maxMessages perSeconds (t0 :: now :: clock) c = Ok true c'
    /\ connected c' = false
    /\ doneChan c' = chanMake m [] true
    /\ conn c' = Some (mkConn (reads cn') (writes cn') true)
    /\ sendQueue c' = chanMake n rest cl
    /\ written (events c') = written (events c).
Proof.
  set (c1 := set_sendQueue (chanMake n rest cl) c).
  destruct (sendLine_fails maxMessages perSeconds now data
              (mkBucket maxMessages t0) c1 cn e cn' m [])
    as (c2 & Hline & Hco2 & Hd2 & Hc2 & Hq2 & Hw2); try assumption.
  assert (Hloop : sendLoop maxMessages perSeconds (now :: clock)
                    (mkBucket maxMessages t0) c = Ok true c2).
  { cbn [sendLoop]. unfold bind at 1, get. rewrite Hdone, Hqueue.
    cbn [channel.isClosed receive]. unfold bind at 1, modify. fold c1.
    erewrite bind_Ok by exact Hline. reflexivity. }
  eexists. split.
  - unfold startSendLoop, bind at 1, get. rewrite Hconn, Hloop.
    unfold defer, connClose, bind, get, modify, emit, ret. rewrite Hc2.
    reflexivity.
  - simpl. rewrite written_app. simpl. rewrite app_nil_r.
    repeat split; assumption.
Qed.

(** ** The receiver and the end of [Connect] *)

Lemma bind_Ok_inv {A B} (m : M A) (f : A -> M B) c b c' :
  bind m f c = Ok b c' -> exists a c1, m c = Ok a c1 /\ f a c1 = Ok b c'.
Proof.
  unfold bind. destruct (m c) as [a c1|p c1]; [|discriminate].
  intros H. exists a, c1. split; [reflexivity|exact H].
Qed.

Lemma recvLoop_disconnects NewMessage fuel :
  forall c e c',
    recvLoop NewMessage fuel c = Ok (Some e) c' -> connected c' = false.
Proof.
  induction fuel as [|fuel IH]; intros c e c' H; [discriminate H|].
  cbn [recvLoop] in H.
  apply bind_Ok_inv in H. destruct H as ([line [e1|]] & c1 & _ & H).
  - apply bind_Ok_inv in H. destruct H as ([] & c2 & Hd & H).
    inversion H; subst. eapply Disconnect_clears. exact Hd.
  - apply bind_Ok_inv in H. destruct H as (_ & c2 & _ & H).
    apply bind_Ok_inv in H. destruct H as (_ & c3 & _ & H).
    eapply IH. exact H.
Qed.

Lemma startRecvLoop_error NewMessage c r c' :
  startRecvLoop NewMessage c = Ok r c' -> exists e, r = Some e.
Proof.
  intros H. pose proof (startRecvLoop_returns NewMessage c) as Hr.
  rewrite H in Hr. destruct r as [e|]; [exists e; reflexivity|congruence].
Qed.

Lemma startRecvLoop_disconnects NewMessage c r c' :
  startRecvLoop NewMessage c = Ok r c' -> connected c' = false.
Proof.
  intros H. destruct (startRecvLoop_error _ _ _ _ H) as (e & ->).
  unfold startRecvLoop in H. apply bind_Ok_inv in H.
  destruct H as (c0 & c1 & _ & H). destruct (conn c0); [|discriminate H].
  eapply recvLoop_disconnects. exact H.
Qed.

(** X14: the receiver's loop has one way out: when it returns, it returns
    an error, and the client is disconnected. *)
Theorem receiver_exit (NewMessage : string -> Message) (c c' : Client)
    (r : option error)
    (Hreturn : startRecvLoop NewMessage c = Ok r c') :
  (exists e, r = Some e) /\ connected c' = false.
Proof.
  split.
  - eapply startRecvLoop_error. exact Hreturn.
  - eapply startRecvLoop_disconnects. exact Hreturn.
Qed.

Lemma defer_Ok_inv {A} (cleanup : M unit) (body : M A) c a c' :
  defer cleanup body c = Ok a c' ->
  exists c1, body c = Ok a c1 /\ cleanup c1 = Ok tt c'.
Proof.
  unfold defer. destruct (body c) as [a1 c1|p c1].
  - destruct (cleanup c1) as [[] c2|p c2] eqn:Hcl; [|discriminate].
    intros H. inversion H; subst. exists c1. split; [reflexivity|exact Hcl].
  - destruct (cleanup c1); discriminate.
Qed.

Lemma closeSendQueue_inv c c' :
  closeSendQueue c = Ok tt c' ->
  connected c' = connected c /\ exists n buf, sendQueue c' = chanMake n buf true.
Proof.
  unfold closeSendQueue, bind, get.
  destruct (sendQueue c) as [|n buf [|]]; simpl; try discriminate.
  intros H. inversion H; subst. split; [reflexivity|]. exists n, buf. reflexivity.
Qed.

Lemma doPostConnect_inv NewMessage nick pass cn maxMessages perSeconds c r c' :
  doPostConnect NewMessage nick pass cn maxMessages perSeconds c = Ok r c' ->
  exists c1,
    closeSendQueue c1 = Ok tt c'
    /\ ((exists e, r = Some e
                   /\ authenticate NewMessage nick pass (session cn c)
                      = Ok (Some e) c1)
        \/ (exists c2 c3,
              authenticate NewMessage nick pass (session cn c) = Ok None c2
              /\ startRecvLoop NewMessage c3 = Ok r c1)).
Proof.
  unfold doPostConnect, bind at 1 2 3, modify. fold (session cn c). intros H.
  apply defer_Ok_inv in H. destruct H as (c1 & Hbody & Hclose).
  exists c1. split; [exact Hclose|].
  apply bind_Ok_inv in Hbody. destruct Hbody as ([e|] & c2 & Hauth & H).
  - left. inversion H; subst. exists e. split; [reflexivity|exact Hauth].
  - right. apply bind_Ok_inv in H. destruct H as (? & c3 & ? & H).
    apply bind_Ok_inv in H. destruct H as (? & c4 & ? & H).
    apply bind_Ok_inv in H. destruct H as (? & c5 & ? & H).
    exists c2, c5. split; [exact Hauth|exact H].
Qed.

(** X15: [Connect] never returns nil: whenever it returns, it returns an
    error. *)
Theorem Connect_returns_an_error (NewMessage : string -> Message)
    (net : network) (nick pass : string) (c c' : Client) (r : option error)
    (Hreturn : Connect NewMessage net nick pass c = Ok r c') :
  exists e, r = Some e.
Proof.
  unfold Connect in Hreturn. apply bind_Ok_inv in Hreturn.
  destruct Hreturn as ([cn [e|]] & c1 & Hdo & H).
  - inversion H; subst. exists e. reflexivity.
  - apply doPostConnect_inv in H.
    destruct H as (c2 & _ & [(e & -> & _)|(c3 & c4 & _ & Hrecv)]).
    + exists e. reflexivity.
    + eapply startRecvLoop_error. exact Hrecv.
Qed.

(** X16: when the handshake succeeded and [Connect] returns, the receiver
    has ended the session: the client is disconnected and its outbound
    queue is closed, and from there [Say], [Whisper], [Join] and [Part]
    return without doing anything. *)
Theorem session_end (NewMessage : string -> Message) (net : network)
    (nick pass : string) (c c2 c' : Client) (cn : Conn) (r : option error)
    (Hfresh : connected c = false)
    (Hdial : net (address c) = inl cn)
    (Hauth : authenticate NewMessage nick pass (session (Some cn) (dialled c))
             = Ok None c2)
    (Hreturn : Connect NewMessage net nick pass c = Ok r c') :
  connected c' = false
  /\ (exists n buf, sendQueue c' = chanMake n buf true)
  /\ (forall channel msg, channel <> "" -> Say channel msg c' = Ok tt c')
  /\ (forall user msg, Whisper user msg c' = Ok tt c')
  /\ (forall channel, Join channel c' = Ok tt c' /\ Part channel c' = Ok tt c').
Proof.
  rewrite (Connect_dials _ _ _ _ _ cn) in Hreturn by assumption.
  apply doPostConnect_inv in Hreturn.
  destruct Hreturn as (c1 & Hclose & [(e & _ & Hbad)|(c3 & c4 & _ & Hrecv)]);
    [rewrite Hauth in Hbad; discriminate Hbad|].
  apply startRecvLoop_disconnects in Hrecv. rename Hrecv into Hdown.
  apply closeSendQueue_inv in Hclose. destruct Hclose as (Hsame & Hclosed).
  assert (Hc' : connected c' = false) by congruence.
  split; [exact Hc'|]. split; [exact Hclosed|].
  split; [intros; apply Say_not_connected; assumption|].
  split; [intros; apply Say_not_connected; [discriminate|exact Hc']|].
  intros channel. split; apply send_not_connected; exact Hc'.
Qed.

(** ** Dial and handshake errors *)

(** X17: when the dial fails, [Connect] returns the dial's error as it is;
    the flag stays down and the client is as before but for the dial
    attempt, so that a later [Connect] dials again and, when that dial
    succeeds, goes on to the handshake. *)
Theorem dial_failure_is_returned (NewMessage : string -> Message)
    (net : network) (nick pass : string) (c : Client) (e : error)
    (Hfresh : connected c = false)
    (Hdial : net (address c) = inr e) :
  let c1 := withEvents [EvDial (address c)] c in
  Connect NewMessage net nick pass c = Ok (Some e) c1
  /\ connected c1 = false
  /\ conn c1 = conn c
  /\ sendQueue c1 = sendQueue c
  /\ doneChan c1 = doneChan c
  /\ forall net' cn,
       net' (address c) = inl cn ->
       Connect NewMessage net' nick pass c1
       = doPostConnect NewMessage nick pass (Some cn) 19 30 (dialled c1).
Proof.
  intros c1. split; [apply Connect_dial_fails; assumption|].
  split; [exact Hfresh|]. split; [reflexivity|]. split; [reflexivity|].
  split; [reflexivity|].
  intros net' cn Hnet. apply Connect_dials; [exact Hfresh|exact Hnet].
Qed.

Lemma calls_withLog format v c :
  calls (events (withLog format v c)) = calls (events c).
Proof.
  unfold withLog. destruct (Debug (options c)); [|reflexivity].
  simpl. rewrite calls_app. simpl. apply app_nil_r.
Qed.

Lemma calls_afterWrite data err cn c :
  calls (events (afterWrite data err cn c)) = calls (events c).
Proof.
  unfold afterWrite, flushed. destruct err; simpl.
  - apply calls_withLog.
  - rewrite calls_app, calls_withLog. simpl. apply app_nil_r.
Qed.

Lemma calls_afterRead line cn c :
  calls (events (afterRead line cn c)) = calls (events c).
Proof. unfold afterRead. rewrite calls_withLog. reflexivity. Qed.

Lemma nextFlush_reads cn err cn' : nextFlush cn = (err, cn') -> reads cn' = reads cn.
Proof.
  unfold nextFlush. destruct (writes cn); intros H; inversion H; reflexivity.
Qed.

(** X18: the handshake stops at its first error.  When the write of the
    credentials fails, [authenticate] returns that error without having
    written or read anything; when the read of the first response fails, it
    returns that error with only the credentials written.  In both cases no
    listener is invoked and no capability request is written. *)
Theorem handshake_stops_at_first_error (NewMessage : string -> Message)
    (nick pass : string) (c : Client) (cn : Conn)
    (Hconn : conn c = Some cn)
    (Hopen : connClosed cn = false) :
  (forall e cn1,
     nextFlush cn = (Some e, cn1) ->
     exists c',
       authenticate NewMessage nick pass c = Ok (Some e) c'
       /\ written (events c') = written (events c)
       /\ calls (events c') = calls (events c)
       /\ conn c' = Some cn1 /\ reads cn1 = reads cn)
  /\ (forall cn1 line e cn2,
        nextFlush cn = (None, cn1) ->
        nextRead cn1 = ((line, Some e), cn2) ->
        exists c',
          authenticate NewMessage nick pass c = Ok (Some e) c'
          /\ written (events c')
             = (written (events c) ++ [passNick nick pass])%list
          /\ calls (events c') = calls (events c)).
Proof.
  split.
  - intros e cn1 Hf. eexists. split.
    + eapply authenticate_write_error; eassumption.
    + split; [|split; [apply calls_afterWrite|split]].
      * unfold afterWrite, flushed. simpl. apply written_withLog.
      * apply afterWrite_conn.
      * eapply nextFlush_reads. exact Hf.
  - intros cn1 line e cn2 Hf Hr. eexists. split.
    + eapply authenticate_read_error; eassumption.
    + unfold greeted. rewrite written_afterRead, written_afterWrite.
      rewrite calls_afterRead, calls_afterWrite. split; reflexivity.
Qed.

(** ** The channels [doPostConnect] joins *)

Lemma withLog_options format v c : options (withLog format v c) = options c.
Proof. unfold withLog. destruct (Debug (options c)); reflexivity. Qed.

Lemma take_room {A} (x : A) (l : list A) k :
  (0 < k)%nat -> take k (x :: l) = x :: take (k - 1) l.
Proof. destruct k; [lia|]. simpl. rewrite Nat.sub_0_r. reflexivity. Qed.

(** X19: the loop over the configured channels in [doPostConnect], run on a
    connected client with an open queue, enqueues [JOIN <channel>] for the
    channels in their order, [#] prepended where missing, for as many
    channels as the queue has room; the Joins beyond that are dropped.
    The flag is not touched. *)
Theorem configured_channels_joined (channels : list string) :
  forall (c : Client) (n : nat) (buf : list string),
    connected c = true ->
    sendQueue c = chanMake n buf false ->
    exists c',
      forEach channels Join c = Ok tt c'
      /\ sendQueue c'
         = chanMake n
             (buf ++ take (n - length buf)
                      (map (fun ch => "JOIN " ++ hashed ch) channels)) false
      /\ connected c' = true.
Proof.
  induction channels as [|ch channels IH]; intros c n buf Hc Hq.
  - exists c. split; [reflexivity|]. simpl. rewrite take_nil, app_nil_r.
    split; assumption.
  - cbn [forEach map]. destruct (Nat.ltb_spec (length buf) n) as [Hroom|Hfull].
    + assert (HJ : Join ch c
                   = Ok tt (enqueued n buf ("JOIN " ++ hashed ch) c)).
      { unfold Join. fold (hashed ch). rewrite <- Sprintf_JOIN.
        apply send_enqueues; assumption. }
      erewrite bind_Ok by exact HJ.
      destruct (IH (enqueued n buf ("JOIN " ++ hashed ch) c) n
                  (buf ++ ["JOIN " +:+ hashed ch])%list) as (c' & Hrun & Hq' & Hc');
        [exact Hc|reflexivity|].
      exists c'. split; [exact Hrun|]. split; [|exact Hc'].
      rewrite Hq', length_app, take_room by lia. simpl.
      rewrite <- app_assoc. simpl.
      replace (n - (length buf + 1))%nat with (n - length buf - 1)%nat by lia.
      reflexivity.
    + assert (HJ : Join ch c
                   = Ok tt (withLog "Send queue full; discarding message: %s"
                              [fmt.argString
                                 (fmt.Sprintf "JOIN %s" [fmt.argString (hashed ch)])]
                              c)).
      { unfold Join. fold (hashed ch). apply (send_full _ _ c n buf); assumption. }
      erewrite bind_Ok by exact HJ.
      destruct (IH (withLog "Send queue full; discarding message: %s"
                      [fmt.argString
                         (fmt.Sprintf "JOIN %s" [fmt.argString (hashed ch)])] c)
                  n buf) as (c' & Hrun & Hq' & Hc');
        [rewrite withLog_connected; exact Hc
        |rewrite withLog_sendQueue; exact Hq|].
      exists c'. split; [exact Hrun|]. split; [|exact Hc'].
      rewrite Hq'. replace (n - length buf)%nat with 0%nat by lia. reflexivity.
Qed.

(** ** The bucket after a full window *)

Lemma refill_later maxMessages perSeconds tok t d :
  ((time.minDuration <=? d) && (d <=? time.maxDuration))%bool = true ->
  refill maxMessages perSeconds (mkBucket tok t) (t + d)
  = (tok + time.Seconds d * (maxMessages / perSeconds))%float.
Proof.
  intros H. apply andb_true_iff in H. destruct H as (Hlo & Hhi).
  apply Z.leb_le in Hlo, Hhi.
  unfold refill, time.Sub. simpl. replace (t + d - t) with d by lia.
  destruct (Z.ltb_spec d time.minDuration); [lia|].
  destruct (Z.ltb_spec time.maxDuration d); [lia|]. reflexivity.
Qed.

(** one iteration of the bucket, at the reading of the last one or later *)
Ltac tock :=
  cbn [bucketTrace];
  first [rewrite refill_same | rewrite refill_later by reflexivity];
  match goal with
  | |- context [throttle ?a ?b] =>
      let v := eval vm_compute in (throttle a b) in
      change (throttle a b) with v
  end;
  cbv beta iota zeta;
  try match goal with
      | |- context [mkBucket (?x - 1)%float _] =>
          let v := eval vm_compute in (x - 1)%float in
          change (x - 1)%float with v
      end.

Lemma bucketTrace_two_bursts t lines :
  length lines = 38%nat ->
  bucketTrace 19 30 (replicate 19 t ++ replicate 19 (t + 30 * time.Second))
    lines (mkBucket 19 t)
  = map (fun l => EvWrite (terminated l)) lines.
Proof.
  intros Hlen.
  do 38 (destruct lines as [|? lines]; [discriminate Hlen|]).
  destruct lines; [|discriminate Hlen].
  cbn [replicate app map].
  do 38 tock. reflexivity.
Qed.

(** X20: a burst of 19 lines empties the bucket of capacity 19, and one
    window of 30 seconds later it is full again: a fresh sender that sends
    19 lines at one clock reading and 19 more at a reading 30 seconds later
    writes all 38 without ever calling [time.Sleep]. *)
Theorem bucket_refills_after_window (t : time.Time) (lines rest : list string)
    (c : Client) (cn : Conn) (n : nat) (cl : bool)
    (Hlen : length lines = 38%nat)
    (Hdone : channel.isClosed (doneChan c) = false)
    (Hqueue : sendQueue c = chanMake n (lines ++ rest) cl)
    (Hconn : conn c = Some cn)
    (Hopen : connClosed cn = false)
    (Hwrites : writes cn = []) :
  exists c',
    startSendLoop 19 30
      (t :: replicate 19 t ++ replicate 19 (t + 30 * time.Second)) c
    = Ok false c'
    /\ sendTrace (events c')
       = (sendTrace (events c)
          ++ map (fun l => EvWrite (terminated l)) lines)%list.
Proof.
  destruct (sendLoop_trace 19 30
              (replicate 19 t ++ replicate 19 (t + 30 * time.Second))
              lines (mkBucket 19 t) c cn n rest cl) as (c' & Hrun & Htrace);
    try assumption.
  { rewrite length_app, !length_replicate, Hlen. lia. }
  exists c'. split.
  - unfold startSendLoop, bind, get. rewrite Hconn, Hrun. reflexivity.
  - rewrite Htrace, bucketTrace_two_bursts by exact Hlen. reflexivity.
Qed.

(** ** Parameters that are missing *)

(** X21: the accesses to the channel parameter are not guarded: a JOIN, a
    PART, a USERSTATE, a ROOMSTATE, and a resub, a subscription and a
    subgift without any parameter panic with an index out of range when a
    listener of their kind is registered, and so does a PRIVMSG with a
    [bits] tag and fewer than two parameters when a cheer listener is
    registered. *)
Theorem missing_parameters_panic (msg : Message) (c : Client) :
  let panics := dispatch msg c = Panic IndexOutOfRange c in
  (Params msg = [] ->
   (Command msg = "JOIN" -> joinCallbacks c <> [] -> panics)
   /\ (Command msg = "PART" -> partCallbacks c <> [] -> panics)
   /\ (Command msg = "USERSTATE" -> userStateCallbacks c <> [] -> panics)
   /\ (Command msg = "ROOMSTATE" -> roomStateCallbacks c <> [] -> panics)
   /\ (Command msg = "USERNOTICE" ->
       (Tags msg !! "msg-id" = Some "resub" -> resubCallbacks c <> [] -> panics)
       /\ (Tags msg !! "msg-id" = Some "sub" ->
           subscriptionCallbacks c <> [] -> panics)
       /\ (Tags msg !! "msg-id" = Some "subgift" ->
           subGiftCallbacks c <> [] -> panics)))
  /\ (Command msg = "PRIVMSG" -> (length (Params msg) < 2)%nat ->
      forall bits, Tags msg !! "bits" = Some bits ->
      cheerCallbacks c <> [] -> panics).
Proof.
  intros panics. unfold panics. split.
  - intros Hp.
    assert (Hloop : forall (l : list listener) (f : listener -> M unit),
              l <> [] ->
              (forall cb, f cb c = Panic IndexOutOfRange c) ->
              (c0 ← get; forEach l f) c = Panic IndexOutOfRange c).
    { intros l f Hl Hf. unfold bind, get. apply forEach_panic; assumption. }
    split; [|split; [|split; [|split]]]; intros Hcmd.
    + rewrite dispatch_JOIN by exact Hcmd. intros Hl.
      unfold doJoinCallbacks, bind at 1, get. apply forEach_panic; [exact Hl|].
      intros cb. rewrite Hp. reflexivity.
    + rewrite dispatch_PART by exact Hcmd. intros Hl.
      unfold doPartCallbacks, bind at 1, get. apply forEach_panic; [exact Hl|].
      intros cb. rewrite Hp. reflexivity.
    + rewrite dispatch_USERSTATE by exact Hcmd. intros Hl.
      unfold doUserStateCallbacks, bind at 1, get.
      apply forEach_panic; [exact Hl|]. intros cb. rewrite Hp. reflexivity.
    + rewrite dispatch_ROOMSTATE by exact Hcmd. intros Hl.
      unfold doRoomStateCallbacks, bind at 1, get.
      apply forEach_panic; [exact Hl|]. intros cb. rewrite Hp. reflexivity.
    + rewrite dispatch_USERNOTICE by exact Hcmd.
      split; [|split]; intros Hid Hl; rewrite Hid; simpl;
        [unfold doResubCallbacks|unfold doSubscriptionCallbacks
        |unfold doSubGiftCallbacks];
        unfold bind at 1, get; (apply forEach_panic; [exact Hl|]);
        intros cb; erewrite bind_Ok by apply body_eq; rewrite Hp; reflexivity.
  - intros Hcmd Hlen bits Hb Hl. rewrite dispatch_PRIVMSG by exact Hcmd.
    rewrite (lookup_short _ Hlen), Hb. simpl.
    unfold doCheerCallbacks, bind at 1, get. apply forEach_panic; [exact Hl|].
    intros cb. unfold bind, index.
    destruct (Params msg) as [|p0 [|p1 rest]]; simpl in *; try reflexivity; lia.
Qed.

(** ** Shutdown and reuse *)

(** X22: the shutdown chain.  On a connected client whose outbound queue is
    empty and whose reader holds no line that it has not returned yet,
    [Disconnect] closes the shutdown channel; the sender, at its next
    iteration, returns and closes the transport without writing; the
    receiver's next read then goes to the closed transport and fails, and
    the receiver returns that error, with the client disconnected. *)
Theorem shutdown_chain (NewMessage : string -> Message)
    (maxMessages perSeconds : float) (t0 now : time.Time)
    (clock : list time.Time) (c : Client) (cn : Conn) (n m : nat)
    (Hconnected : connected c = true)
    (Hdone : doneChan c = chanMake m [] false)
    (Hqueue : sendQueue c = chanMake n [] false)
    (Hconn : conn c = Some cn)
    (Hnone : reads cn = []) :
  let c1 := set_doneChan (chanMake m [] true) (set_connected false c) in
  let c2 := withEvents [EvConnClose]
              (set_conn (Some (mkConn (reads cn) (writes cn) true)) c1) in
  Disconnect c = Ok tt c1
  /\ startSendLoop maxMessages perSeconds (t0 :: now :: clock) c1 = Ok true c2
  /\ startRecvLoop NewMessage c2 = Ok (Some ErrClosed) c2
  /\ connected c2 = false
  /\ written (events c2) = written (events c).
Proof.
  intros c1 c2. split; [apply Disconnect_open; assumption|]. split.
  - unfold startSendLoop, bind at 1, get. simpl. rewrite Hconn.
    unfold bind at 1, get. simpl.
    unfold defer, connClose, bind, get, modify, emit, ret. simpl. rewrite Hconn.
    reflexivity.
  - split; [|split].
    + unfold startRecvLoop, bind at 1, get. simpl.
      cbn [recvLoop]. unfold bind at 1, readString, bind at 1, get. simpl.
      rewrite Hnone. unfold ret at 1. cbv beta iota.
      erewrite bind_Ok by (apply Disconnect_not_connected; reflexivity).
      reflexivity.
    + reflexivity.
    + simpl. rewrite written_app. simpl. apply app_nil_r.
Qed.

(** X23: [Connect] on a client that is not connected makes its own
    transport, shutdown channel and outbound queue: when the dial succeeds,
    what it does and returns does not depend on the transport, the
    shutdown channel and the queue that an earlier session left in the
    client. *)
Theorem Connect_forgets_old_session (NewMessage : string -> Message)
    (net : network) (nick pass : string) (c : Client) (cn : Conn)
    (q : chan string) (d : chan unit) (old : option Conn)
    (Hfresh : connected c = false)
    (Hdial : net (address c) = inl cn) :
  Connect NewMessage net nick pass (set_sendQueue q (set_doneChan d (set_conn old c)))
  = Connect NewMessage net nick pass c.
Proof.
  rewrite (Connect_dials _ _ _ _ _ cn) by assumption.
  rewrite (Connect_dials _ _ _ _ _ cn) by assumption.
  reflexivity.
Qed.

(** ** The further properties at concrete clients *)

Lemma Join_Part_enqueue_witness :
  Join "foo" live = Ok tt (queued ["JOIN #foo"] live)
  /\ Part "#foo" live = Ok tt (queued ["PART #foo"] live).
Proof.
  destruct (Join_Part_enqueue "foo" live sendBufferSize []) as (HJ & _);
    [reflexivity|reflexivity|unfold sendBufferSize; simpl; lia|].
  destruct (Join_Part_enqueue "#foo" live sendBufferSize []) as (_ & HP & _);
    [reflexivity|reflexivity|unfold sendBufferSize; simpl; lia|].
  rewrite HJ, HP. split; reflexivity.
Defined.

Lemma Say_enqueues_witness :
  Say "foo" "hello" live = Ok tt (queued ["PRIVMSG #foo :hello"] live)
  /\ Whisper "bob" "psst" live = Ok tt (queued ["PRIVMSG #jtv :/w bob psst"] live).
Proof.
  destruct (Say_enqueues "foo" "hello" live sendBufferSize []) as (_ & HS & _);
    [discriminate|reflexivity|reflexivity|unfold sendBufferSize; simpl; lia|].
  destruct (Say_enqueues "foo" "psst" live sendBufferSize []) as (_ & _ & HW);
    [discriminate|reflexivity|reflexivity|unfold sendBufferSize; simpl; lia|].
  rewrite HS, HW by reflexivity. split; reflexivity.
Defined.

Lemma nothing_sent_when_disconnected_witness :
  Join "foo" listening = Ok tt listening
  /\ Say "#foo" "hi" listening = Ok tt listening
  /\ dispatch (NewMessage "PING :x") listening = Ok tt listening.
Proof.
  destruct (nothing_sent_when_disconnected listening) as (HJ & HS & _ & HP);
    [reflexivity|].
  split; [exact (proj1 (HJ "foo"))|].
  split; [exact (HS "#foo" "hi" ltac:(discriminate))|].
  exact (HP (NewMessage "PING :x") "x" [] eq_refl eq_refl).
Defined.

Lemma queue_never_overflows_witness :
  bounded (after (Say "#foo" "hi") live)
  /\ bounded (after (dispatch (NewMessage "PING :x")) live).
Proof.
  destruct (queue_never_overflows live) as (HS & _ & _ & HD & _).
  - unfold bounded, live, session, sendBufferSize. simpl. lia.
  - split; [apply HS|apply HD].
Defined.

Lemma dispatch_touches_nothing_else_witness :
  queueOpen (after (dispatch (NewMessage "PING :x")) live)
  /\ written (events (after (dispatch (NewMessage "PING :x")) live)) = [].
Proof.
  destruct (dispatch_touches_nothing_else (NewMessage "PING :x") live)
    as (_ & Hw & _ & _ & _ & _ & _ & Hq).
  split; [apply Hq; eexists _, _; reflexivity|exact Hw].
Defined.

Lemma privmsg_routing_witness :
  exists text,
    actionBody = actionMarker +:+ text
    /\ dispatch (NewMessage actionLine) listening
       = Ok tt (withEvents
                  (heard [1%nat] (argsChannelTagsMsg "#foo" ∅ text)) listening).
Proof.
  destruct (privmsg_routing (NewMessage actionLine) listening "#foo" actionBody [])
    as (Haction & _); [reflexivity|reflexivity|].
  apply Haction. reflexivity.
Defined.

Lemma listeners_in_registration_order_witness :
  (OnChat 9%nat ;; dispatch (NewMessage "PRIVMSG #foo :hi")) listening
  = Ok tt (withEvents
             [EvCall 2%nat (argsChannelTagsMsg "#foo" ∅ "hi");
              EvCall 9%nat (argsChannelTagsMsg "#foo" ∅ "hi")]
             (set_chatCallbacks [2%nat; 9%nat] listening)).
Proof.
  destruct (listeners_in_registration_order (NewMessage "PRIVMSG #foo :hi")
              listening 9%nat "#foo" "hi" []) as (Horder & _);
    [reflexivity|reflexivity|reflexivity|reflexivity|].
  rewrite Horder. reflexivity.
Defined.

Lemma dispatch_ignores_witness :
  dispatch (NewMessage ":tmi.twitch.tv CAP * ACK :twitch.tv/tags") listening
  = Ok tt listening
  /\ dispatch (NewMessage "@msg-id=raid :tmi.twitch.tv USERNOTICE #foo") listening
     = Ok tt listening.
Proof.
  split.
  - apply (proj1 (dispatch_ignores _ listening)).
    vm_compute. intuition discriminate.
  - apply (proj2 (dispatch_ignores _ listening)); [reflexivity|].
    vm_compute. intuition discriminate.
Defined.

Lemma single_list_routing_witness :
  dispatch (NewMessage ":bob!bob@bob.tmi.twitch.tv JOIN #foo")
    (set_joinCallbacks [6%nat] listening)
  = Ok tt (withEvents [EvCall 6%nat (argsChannelUser "#foo" "bob")]
             (set_joinCallbacks [6%nat] listening)).
Proof.
  destruct (single_list_routing
              (NewMessage ":bob!bob@bob.tmi.twitch.tv JOIN #foo")
              (set_joinCallbacks [6%nat] listening) "#foo" []) as (Hjoin & _);
    [reflexivity|].
  rewrite Hjoin by reflexivity. reflexivity.
Defined.

Lemma dispatch_without_listeners_witness :
  exists c', dispatch (NewMessage "PRIVMSG") (NewClient twitch) = Ok tt c'.
Proof.
  apply dispatch_without_listeners; [reflexivity|]. discriminate.
Defined.

Lemma line_delimiter_witness :
  terminated "JOIN #foo" = "JOIN #foo" +:+ CRLF
  /\ terminated ("JOIN #foo" +:+ CRLF) = "JOIN #foo" +:+ CRLF.
Proof.
  destruct (line_delimiter "JOIN #foo") as (_ & _ & _ & Hadd).
  destruct (line_delimiter ("JOIN #foo" +:+ CRLF)) as (_ & _ & Hkeep & _).
  split; [apply Hadd|apply Hkeep]; reflexivity.
Defined.

Lemma sender_is_fifo_witness :
  exists c',
    startSendLoop 19 30 [0; 5; 7] (queued ["a"; "b"; "c"] live) = Ok false c'
    /\ written (events c') = ["a" +:+ CRLF; "b" +:+ CRLF]
    /\ sendQueue c' = chanMake sendBufferSize ["c"] false.
Proof.
  destruct (sender_is_fifo 19 30 0 [5; 7] ["a"; "b"; "c"] []
              (queued ["a"; "b"; "c"] live) (mkConn [] [] false)
              sendBufferSize false) as (c' & Hrun & Hw & Hq);
    [simpl; lia|reflexivity|reflexivity|reflexivity|reflexivity|reflexivity|].
  exists c'. split; [exact Hrun|]. rewrite Hw, Hq. split; reflexivity.
Defined.

Lemma sender_write_failure_witness :
  exists c',
    startSendLoop 19 30 [0; 1] failing = Ok true c'
    /\ connected c' = false
    /\ conn c' = Some (mkConn [] [] true).
Proof.
  destruct (sender_write_failure 19 30 0 1 [] "PRIVMSG #foo :hi" [] failing
              (mkConn [] [Some ErrClosed] false) (mkConn [] [] false) ErrClosed
              sendBufferSize 0 false)
    as (c' & Hrun & Hdown & _ & Hconn & _); try reflexivity.
  exists c'. split; [exact Hrun|]. split; [exact Hdown|exact Hconn].
Defined.

Lemma receiver_exit_witness :
  exists c',
    startRecvLoop NewMessage live = Ok (Some EOF) c' /\ connected c' = false.
Proof.
  eexists. split; [vm_compute; reflexivity|].
  eapply (receiver_exit NewMessage live). vm_compute. reflexivity.
Defined.

Lemma Connect_returns_an_error_witness :
  exists e c',
    Connect NewMessage welcoming "bot" "oauth:x" (NewClient twitch)
    = Ok (Some e) c'.
Proof.
  assert (H : exists r c',
             Connect NewMessage welcoming "bot" "oauth:x" (NewClient twitch)
             = Ok r c') by (eexists _, _; vm_compute; reflexivity).
  destruct H as (r & c' & H).
  destruct (Connect_returns_an_error NewMessage welcoming "bot" "oauth:x"
              (NewClient twitch) c' r H) as (e & ->).
  exists e, c'. exact H.
Defined.

Lemma session_end_witness :
  exists r c',
    Connect NewMessage welcoming "bot" "oauth:x" (NewClient twitch) = Ok r c'
    /\ connected c' = false
    /\ Say "#foo" "hi" c' = Ok tt c'.
Proof.
  assert (H : exists r c',
             Connect NewMessage welcoming "bot" "oauth:x" (NewClient twitch)
             = Ok r c') by (eexists _, _; vm_compute; reflexivity).
  destruct H as (r & c' & H).
  edestruct (session_end NewMessage welcoming "bot" "oauth:x"
               (NewClient twitch)) as (Hdown & _ & Hsay & _);
    [reflexivity|reflexivity|vm_compute; reflexivity|exact H|].
  exists r, c'. split; [exact H|]. split; [exact Hdown|apply Hsay; discriminate].
Defined.

Lemma dial_failure_is_returned_witness :
  Connect NewMessage unreachable "bot" "oauth:x" (NewClient twitch)
  = Ok (Some (netError "connection refused"))
      (withEvents [EvDial "irc.chat.twitch.tv:6667"] (NewClient twitch)).
Proof.
  destruct (dial_failure_is_returned NewMessage unreachable "bot" "oauth:x"
              (NewClient twitch) (netError "connection refused"))
    as (Hrun & _); [reflexivity|reflexivity|].
  rewrite Hrun. reflexivity.
Defined.

Lemma handshake_stops_at_first_error_witness :
  exists c',
    authenticate NewMessage "bot" "oauth:x" failing = Ok (Some ErrClosed) c'
    /\ written (events c') = [].
Proof.
  destruct (handshake_stops_at_first_error NewMessage "bot" "oauth:x" failing
              (mkConn [] [Some ErrClosed] false)) as (Hwrite & _);
    [reflexivity|reflexivity|].
  destruct (Hwrite ErrClosed (mkConn [] [] false)) as (c' & Hrun & Hw & _);
    [reflexivity|].
  exists c'. split; [exact Hrun|exact Hw].
Defined.

Lemma configured_channels_joined_witness :
  exists c',
    forEach ["foo"; "#bar"] Join live = Ok tt c'
    /\ sendQueue c' = chanMake sendBufferSize ["JOIN #foo"; "JOIN #bar"] false.
Proof.
  destruct (configured_channels_joined ["foo"; "#bar"] live sendBufferSize [])
    as (c' & Hrun & Hq & _); [reflexivity|reflexivity|].
  exists c'. split; [exact Hrun|]. rewrite Hq. reflexivity.
Defined.

Lemma bucket_refills_after_window_witness :
  exists c',
    startSendLoop 19 30
      (0 :: replicate 19 0 ++ replicate 19 (0 + 30 * time.Second))
      (queued (replicate 38 "PRIVMSG #foo :hi") live) = Ok false c'
    /\ sendTrace (events c')
       = replicate 38 (EvWrite ("PRIVMSG #foo :hi" +:+ CRLF)).
Proof.
  destruct (bucket_refills_after_window 0 (replicate 38 "PRIVMSG #foo :hi") []
              (queued (replicate 38 "PRIVMSG #foo :hi") live)
              (mkConn [] [] false) sendBufferSize false)
    as (c' & Hrun & Htrace); try reflexivity.
  exists c'. split; [exact Hrun|]. rewrite Htrace. reflexivity.
Defined.

Lemma missing_parameters_panic_witness :
  dispatch (NewMessage "JOIN") (set_joinCallbacks [6%nat] listening)
  = Panic IndexOutOfRange (set_joinCallbacks [6%nat] listening)
  /\ dispatch (NewMessage "@bits=100 PRIVMSG #foo") listening
     = Panic IndexOutOfRange listening.
Proof.
  destruct (missing_parameters_panic (NewMessage "JOIN")
              (set_joinCallbacks [6%nat] listening)) as (Hnone & _).
  destruct (Hnone eq_refl) as (Hjoin & _).
  destruct (missing_parameters_panic (NewMessage "@bits=100 PRIVMSG #foo")
              listening) as (_ & Hcheer).
  split.
  - apply Hjoin; [reflexivity|discriminate].
  - apply (Hcheer eq_refl) with (bits := "100");
      [simpl; lia|reflexivity|discriminate].
Defined.

Lemma shutdown_chain_witness :
  (Disconnect ;; startSendLoop 19 30 [0; 1] ;; startRecvLoop NewMessage) live
  = Ok (Some ErrClosed)
      (withEvents [EvConnClose]
         (set_conn (Some (mkConn [] [] true))
            (set_doneChan (chanMake 0 [] true) (set_connected false live)))).
Proof.
  destruct (shutdown_chain NewMessage 19 30 0 1 [] live (mkConn [] [] false)
              sendBufferSize 0) as (Hd & Hs & Hr & _);
    [reflexivity|reflexivity|reflexivity|reflexivity|reflexivity|].
  erewrite bind_Ok by exact Hd. erewrite bind_Ok by exact Hs. exact Hr.
Defined.

Lemma Connect_forgets_old_session_witness :
  Connect NewMessage welcoming "bot" "oauth:x"
    (set_sendQueue (chanMake 1 ["stale"] true)
       (set_doneChan (chanMake 0 [] true)
          (set_conn (Some (mkConn [] [] true)) (NewClient twitch))))
  = Connect NewMessage welcoming "bot" "oauth:x" (NewClient twitch).
Proof.
  apply (Connect_forgets_old_session NewMessage welcoming "bot" "oauth:x"
           (NewClient twitch)
           (mkConn [(":tmi.twitch.tv 001 bot :Welcome, GLHF!" +:+ CRLF, None);
                    ("PING :tmi.twitch.tv" +:+ CRLF, None)] [] false));
    reflexivity.
Defined.
